(** * SDG classification and aggregation engine (makeit.py)

    A shallow embedding of the keyword classifier [map_snippet_to_sdgs], the
    sentiment labeller [analyze_sentiment], the SDG tally and the article
    filter of [main], with the properties stated about them.

    Modelling choices.
    - Python [str] is [string]; the texts covered are ASCII texts, on which
      [str.lower] maps the letters A..Z to a..z and leaves every other
      character alone.  Where a statement is about every text, the text is the
      string of its UTF-8 bytes and [str.lower] of the interpreter is a
      parameter, [str_lower], known only to agree with this on ASCII strings.
    - Python [float] is the primitive binary64 [float]; [0.2] below is the same
      double as the literal [0.2] of the source.
    - [set] is [gset string], [defaultdict(int)] is [gmap string nat] with the
      default written out, the insertion-ordered dict [SDG_KEYWORDS] is the list
      of its items.
    - [TextBlob(text).sentiment] is code of a library: it is a parameter of the
      embedding, a function that returns the two scores or raises. *)

From Stdlib Require Import Ascii String Floats.
From stdpp Require Import gmap strings list fin_maps sorting.

Local Open Scope string_scope.

(** ** Python string primitives *)

Module Str.

(** [c.isupper()] on an ASCII character. *)
Definition is_upper (c : ascii) : bool :=
  let n := nat_of_ascii c in (65 <=? n)%nat && (n <=? 90)%nat.

Definition lower_char (c : ascii) : ascii :=
  if is_upper c then ascii_of_nat (nat_of_ascii c + 32) else c.

(** [s.lower()] *)
Fixpoint lower (s : string) : string :=
  match s with
  | EmptyString => EmptyString
  | String c s' => String (lower_char c) (lower s')
  end.

(** [s.startswith(p)] *)
Fixpoint startswith (s p : string) {struct p} : bool :=
  match p, s with
  | EmptyString, _ => true
  | String _ _, EmptyString => false
  | String a p', String b s' => if Ascii.eqb a b then startswith s' p' else false
  end.

(** [sub in s]: the substring test of Python. *)
Fixpoint contains (s sub : string) : bool :=
  startswith s sub ||
  match s with
  | EmptyString => false
  | String _ s' => contains s' sub
  end.

End Str.

(** [any(p(x) for x in xs)] *)
Definition any {A : Type} (p : A → bool) (xs : list A) : bool := existsb p xs.

(** ** The keyword table *)

Record sdg_entry := SdgEntry { keywords : list string; color : string }.

Definition SDG_KEYWORDS : list (string * sdg_entry) :=
  [ ("No Poverty (SDG1)",
      SdgEntry ["poverty"; "financial inclusion"; "poverty reduction"] "#e5243b");
    ("Good Health and Well-being (SDG3)",
      SdgEntry ["health"; "wellbeing"; "mental health"; "healthcare"] "#4c9f38");
    ("Gender Equality (SDG5)",
      SdgEntry ["gender equality"; "women empowerment"; "diversity"; "inclusion"] "#ff3a21");
    ("Affordable and Clean Energy (SDG7)",
      SdgEntry ["clean energy"; "renewable"; "solar"; "wind"; "energy efficiency"] "#fcc30b");
    ("Decent Work and Economic Growth (SDG8)",
      SdgEntry ["economic growth"; "jobs"; "employment"; "decent work"] "#a21942");
    ("Industry, Innovation and Infrastructure (SDG9)",
      SdgEntry ["innovation"; "infrastructure"; "technology"; "industry"] "#fd6925");
    ("Reduced Inequalities (SDG10)",
      SdgEntry ["inequality"; "equal opportunity"; "inclusion"; "fairness"] "#dd1367");
    ("Sustainable Cities and Communities (SDG11)",
      SdgEntry ["sustainable cities"; "urban"; "communities"; "housing"] "#fd9d24");
    ("Responsible Consumption and Production (SDG12)",
      SdgEntry ["sustainable consumption"; "waste"; "recycling"; "circular economy"] "#bf8b2e");
    ("Climate Action (SDG13)",
      SdgEntry ["climate change"; "carbon emissions"; "climate action"; "global warming"] "#3f7e44");
    ("Life Below Water (SDG14)",
      SdgEntry ["marine"; "oceans"; "water pollution"; "marine life"] "#0a97d9");
    ("Life on Land (SDG15)",
      SdgEntry ["biodiversity"; "forests"; "land"; "wildlife"; "ecosystem"] "#56c02b");
    ("Peace, Justice and Strong Institutions (SDG16)",
      SdgEntry ["peace"; "justice"; "strong institutions"; "governance"] "#00689d");
    ("Partnerships for the Goals (SDG17)",
      SdgEntry ["partnership"; "collaboration"; "sdg goals"; "sustainable development goals"] "#19486a") ].

(** ** map_snippet_to_sdgs *)

(** One turn of [for sdg, data in SDG_KEYWORDS.items()]. *)
Definition match_step (text_lower : string) (matched_sdgs : gset string)
    (item : string * sdg_entry) : gset string :=
  let '(sdg, data) := item in
  if any (λ keyword, Str.contains text_lower keyword) (keywords data)
  then matched_sdgs ∪ {[ sdg ]}
  else matched_sdgs.

(** The set [matched_sdgs] when the loop is over. *)
Definition matched_sdgs (text : string) : gset string :=
  let text_lower := Str.lower text in
  foldl (match_step text_lower) ∅ SDG_KEYWORDS.

(** [list(matched_sdgs)] enumerates the set once, in an order Python does not
    fix: every such enumeration is a possible return value. *)
Definition enumerates (s : gset string) (l : list string) : Prop :=
  l ≡ₚ elements s.

(** The function returns one of them. *)
Definition map_snippet_to_sdgs (text : string) : list string :=
  elements (matched_sdgs text).

(** ** analyze_sentiment *)

(** A call returns a value or raises.  Nothing between the scorer and the
    loop of [main] catches an exception. *)
Inductive outcome (A : Type) : Type :=
  | Returns (a : A)
  | Raises (exc : string).
Arguments Returns {A} a.
Arguments Raises {A} exc.

#[global] Instance outcome_ret : MRet outcome := λ A a, Returns a.
#[global] Instance outcome_bind : MBind outcome := λ A B k m,
  match m with
  | Returns a => k a
  | Raises exc => Raises exc
  end.

Fixpoint for_each {A B : Type} (f : A → outcome B) (xs : list A) : outcome (list B) :=
  match xs with
  | [] => Returns []
  | x :: xs' => y ← f x; ys ← for_each f xs'; mret (y :: ys)
  end.

(** The dict that [analyze_sentiment] returns. *)
Record analysis := Analysis {
  sentiment : string;
  polarity : float;
  subjectivity : float
}.

(** An article as [scrape_esgtoday_company_news] builds it. *)
Record news_item := NewsItem {
  title : string;
  link : string;
  date : string;
  author : string;
  summary : string
}.

(** The same article with the keys ["sdgs"] and ["sentiment"] that [main] adds
    to it. *)
Record article := Article {
  art_item : news_item;
  sdgs : list string;
  art_sentiment : analysis
}.

#[local] Set Warnings "-inexact-float".

Section Scorer.

(** [TextBlob(text).sentiment]: the pair (polarity, subjectivity), or an
    exception. *)
Variable TextBlob_sentiment : string → outcome (float * float).

Definition analyze_sentiment (text : string) : outcome analysis :=
  '(polarity, subjectivity) ← TextBlob_sentiment text;
  let sentiment :=
    if (0.2 <? polarity)%float then "Positive"
    else if (polarity <? -0.2)%float then "Negative"
    else "Neutral" in
  mret (Analysis sentiment polarity subjectivity).

(** The body of [for art in st.session_state.articles] in [main]: the
    classification of one snippet. *)
Definition classify (art : news_item) : outcome article :=
  let sdgs := map_snippet_to_sdgs (summary art) in
  sentiment ← analyze_sentiment (summary art);
  mret (Article art sdgs sentiment).

Definition classify_all (articles : list news_item) : outcome (list article) :=
  for_each classify articles.

End Scorer.

(** ** The SDG tally of [main] *)

(** [sdg_counts[sdg] += 1] on a [defaultdict(int)]. *)
Definition increment (sdg_counts : gmap string nat) (sdg : string) : gmap string nat :=
  <[ sdg := default 0 (sdg_counts !! sdg) + 1 ]> sdg_counts.

Definition sdg_counts (articles : list article) : gmap string nat :=
  foldl (λ counts art, foldl increment counts (sdgs art)) ∅ articles.

(** ** The article filter of [main] *)

(** [not xs] for a list. *)
Definition is_empty {A : Type} (xs : list A) : bool :=
  match xs with [] => true | _ :: _ => false end.

(** The condition of the comprehension. *)
Definition keeps (selected_sdgs : list string) (sentiment_filter : string)
    (art : article) : bool :=
  (is_empty selected_sdgs
   || any (λ sdg, bool_decide (sdg ∈ sdgs art)) selected_sdgs)
  && (String.eqb sentiment_filter "All"
      || String.eqb (sentiment (art_sentiment art)) sentiment_filter).

Definition filtered_articles (selected_sdgs : list string) (sentiment_filter : string)
    (articles : list article) : list article :=
  List.filter (keeps selected_sdgs sentiment_filter) articles.

(** ** What the statements speak of *)

(** [sub] occurs in [s]: some stretch of [s] is [sub]. *)
Definition occurs_in (sub s : string) : Prop :=
  ∃ pre post, s = pre +:+ sub +:+ post.

(** [k] occurs in [t] up to letter case: some stretch of [t] differs from [k]
    in the case of its letters only. *)
Definition occurs_ci (k t : string) : Prop :=
  ∃ pre mid post, t = pre +:+ mid +:+ post ∧ Str.lower mid = Str.lower k.

(** A display colour of the table: [#] and six more characters. *)
Definition is_color (s : string) : bool :=
  match s with
  | String "#" rest => (String.length rest =? 6)%nat
  | _ => false
  end.

(** The two filters of the article list, as the specification words them:
    nothing selected means every category, otherwise one selected category must
    be among the article's; the choice All means every label. *)
Definition passes_category_filter (selected_categories : list string) (art : article) : Prop :=
  selected_categories = [] ∨ ∃ C, C ∈ selected_categories ∧ C ∈ sdgs art.

Definition passes_sentiment_filter (choice : string) (art : article) : Prop :=
  choice = "All" ∨ sentiment (art_sentiment art) = choice.

(** The number of articles whose categories contain [C]. *)
Definition articles_matching (C : string) (articles : list article) : nat :=
  length (List.filter (λ art, bool_decide (C ∈ sdgs art)) articles).

(** The number of times [C] is met by the two loops of the tally. *)
Fixpoint occurrences (C : string) (l : list string) : nat :=
  match l with
  | [] => 0
  | x :: l' => (if bool_decide (x = C) then 1 else 0) + occurrences C l'
  end.

Definition mentions (C : string) (articles : list article) : nat :=
  sum_list ((λ art, occurrences C (sdgs art)) <$> articles).

(** What [n] increments do to the entry of a [defaultdict(int)]. *)
Definition bump (n : nat) (entry : option nat) : option nat :=
  match n with
  | 0 => entry
  | S _ => Some (default 0 entry + n)
  end.

(** ** The display code of makeit.py *)

(** [d.get(key)] on a dict given by its items. *)
Fixpoint dict_get {V : Type} (d : list (string * V)) (key : string) : option V :=
  match d with
  | [] => None
  | (k, v) :: d' => if String.eqb k key then Some v else dict_get d' key
  end.

(** The emoji of [display_article]: a literal dict and [.get(label, "")]. *)
Definition sentiment_emoji (label : string) : string :=
  default "" (dict_get [("Positive", "😊"); ("Negative", "😞"); ("Neutral", "😐")] label).

(** The colour of a badge in [display_sdg_badges]:
    [SDG_KEYWORDS.get(sdg, {}).get("color", "#000000")]. *)
Definition badge_color (sdg : string) : string :=
  match dict_get SDG_KEYWORDS sdg with
  | Some data => color data
  | None => "#000000"
  end.

(** The colour of a bar of the chart in [main]: [SDG_KEYWORDS[sdg]["color"]],
    a [KeyError] when the key is missing. *)
Definition chart_color (sdg : string) : outcome string :=
  match dict_get SDG_KEYWORDS sdg with
  | Some data => Returns (color data)
  | None => Raises "KeyError"
  end.

(** [sorted(set(sdg for art in articles for sdg in art["sdgs"]))] *)
Definition present_sdgs (articles : list article) : list string :=
  merge_sort String.le
    (elements (list_to_set (concat (sdgs <$> articles)) : gset string)).

(** [" ".join([art['summary'] for art in articles])[:3000]] *)
Definition combined_text (articles : list article) : string :=
  String.substring 0 3000
    (String.concat " " ((λ art, summary (art_item art)) <$> articles)).

(** The numbers that the clamp of a score meets: [max] and [min] return one
    of their arguments as it is, so the [int] literals 0 and 1 and the [float]
    quotient stay apart. *)
Inductive py_number : Type :=
  | PyInt (z : Z)
  | PyFloat (f : float).

(** The [float] of the value of an [int]; exact for the literals 0 and 1, the
    only ones compared here. *)
Definition int_as_float (z : Z) : float := of_uint63 (Uint63.of_Z z).

(** [a < b], by value. *)
Definition py_lt (a b : py_number) : bool :=
  match a, b with
  | PyInt x, PyInt y => (x <? y)%Z
  | PyInt x, PyFloat y => (int_as_float x <? y)%float
  | PyFloat x, PyInt y => (x <? int_as_float y)%float
  | PyFloat x, PyFloat y => (x <? y)%float
  end.

(** Python's [max(a, b)] and [min(a, b)]: the first argument is kept unless
    the second is strictly beyond it. *)
Definition py_max (a b : py_number) : py_number := if py_lt a b then b else a.
Definition py_min (a b : py_number) : py_number := if py_lt b a then b else a.

(** [min(max(val_float / 100, 0), 1)] *)
Definition progress_value (val_float : float) : py_number :=
  py_min (py_max (PyFloat (val_float / 100)%float) (PyInt 0)) (PyInt 1).

(** One numeric metric in the loop of the ESG section: [selected_range] is
    [(None, None)], here [None], or the two floats of the slider; outside the
    range the metric is passed over ([continue], here [None]), inside it the
    clamped value goes to [progress]. *)
Definition metric_progress (selected_range : option (float * float)) (val_float : float) :
    option py_number :=
  match selected_range with
  | Some (lo, hi) =>
    if negb ((lo <=? val_float)%float && (val_float <=? hi)%float)
    then None
    else Some (progress_value val_float)
  | None => Some (progress_value val_float)
  end.

(** ** The keyword trace of [main] *)

(** [found]: the keywords of an entry met in a summary,
    [kw.lower() in art["summary"].lower()]. *)
Definition found (data : sdg_entry) (art : article) : list string :=
  List.filter
    (λ kw, Str.contains (Str.lower (summary (art_item art))) (Str.lower kw))
    (keywords data).

(** [matches]: the index and the keywords of every article with one at
    least. *)
Definition matches (data : sdg_entry) (articles : list article) : list (nat * list string) :=
  List.filter (λ m, negb (is_empty m.2))
    (imap (λ idx art, (idx, found data art)) articles).

(** [s.replace(old, new)] for a non-empty [old], scanning from the left;
    [skip] counts the characters of a replaced occurrence still to pass. *)
Fixpoint replace_scan (skip : nat) (s old new : string) : string :=
  match s with
  | "" => ""
  | String c s' =>
    match skip with
    | S skip' => replace_scan skip' s' old new
    | 0 =>
      if Str.startswith s old
      then new +:+ replace_scan (String.length old - 1) s' old new
      else String c (replace_scan 0 s' old new)
    end
  end.

(** With an empty [old], [new] goes before every character and at the end. *)
Fixpoint replace_empty (s new : string) : string :=
  match s with
  | "" => new
  | String c s' => new +:+ String c (replace_empty s' new)
  end.

Definition replace (s old new : string) : string :=
  match old with
  | "" => replace_empty s new
  | String _ _ => replace_scan 0 s old new
  end.

(** The markup put around a keyword. *)
Definition mark (kw : string) : string :=
  "<mark style='background-color: #ffe066'>" +:+ kw +:+ "</mark>".

(** [highlighted] after [for kw in kws]. *)
Definition highlighted (summary : string) (kws : list string) : string :=
  foldl (λ highlighted kw, replace highlighted kw (mark kw)) summary kws.

(** The labels that [analyze_sentiment] gives. *)
Definition sentiment_labels : list string := ["Positive"; "Negative"; "Neutral"].

(** [sum(sdg_counts.values())] *)
Definition total_count (counts : gmap string nat) : nat :=
  map_fold (λ _ n acc, n + acc) 0 counts.

(** The address that [scrape_esgtoday_company_news] fetches. *)
Definition search_url (company_name : string) : string :=
  "https://www.esgtoday.com/?s=" +:+ replace company_name " " "+".

(** ** Texts beyond ASCII, and letter case on its own *)

(** [s.isascii()] *)
Fixpoint is_ascii (s : string) : bool :=
  match s with
  | "" => true
  | String c s' => (nat_of_ascii c <? 128)%nat && is_ascii s'
  end.



(** Two characters are the same letter when they are equal or one is a capital
    A..Z and the other the small letter 32 places after it. *)
Definition same_letter (a b : ascii) : Prop :=
  let x := nat_of_ascii a in
  let y := nat_of_ascii b in
  x = y ∨ (65 ≤ x ∧ x ≤ 90 ∧ y = x + 32)%nat ∨ (65 ≤ y ∧ y ≤ 90 ∧ x = y + 32)%nat.

(** Two strings are equal ignoring case when they have the same letters at
    the same places. *)
Fixpoint eq_ignoring_case (s t : string) : Prop :=
  match s, t with
  | "", "" => True
  | String a s', String b t' => same_letter a b ∧ eq_ignoring_case s' t'
  | _, _ => False
  end.

(** [k] occurs in [t] ignoring case: a stretch of [t] equals [k] ignoring
    case. *)
Definition occurs_ignoring_case (k t : string) : Prop :=
  ∃ pre mid post, t = pre +:+ mid +:+ post ∧ eq_ignoring_case mid k.

(** * Facts about the string primitives *)

Module StrFacts.
Import Str.

#[local] Arguments String.append !s1 s2 : simpl nomatch.

Lemma app_nil_r (s : string) : s +:+ "" = s.
Proof. induction s as [|c s IH]; simpl; [done | by rewrite IH]. Qed.

Lemma app_assoc (a b c : string) : (a +:+ b) +:+ c = a +:+ (b +:+ c).
Proof. induction a as [|x a IH]; simpl; [done | by rewrite IH]. Qed.

Lemma startswith_spec (p s : string) :
  startswith s p = true ↔ ∃ post, s = p +:+ post.
Proof.
  revert s. induction p as [|a p IH]; intros s; simpl.
  - split; [intros _; by exists s | done].
  - destruct s as [|b s]; simpl.
    + split; [done | intros [post H]; discriminate H].
    + destruct (Ascii.eqb_spec a b) as [->|Hne].
      * rewrite IH. split; intros [post H]; exists post.
        -- by rewrite H.
        -- by injection H.
      * split; [done | intros [post H]; injection H; congruence].
Qed.

Lemma contains_spec (sub s : string) :
  contains s sub = true ↔ occurs_in sub s.
Proof.
  unfold occurs_in. induction s as [|c s IH].
  - simpl. rewrite orb_false_r, startswith_spec. split.
    + intros [post H]. by exists "", post.
    + intros ([|x pre] & post & H); [by exists post | discriminate H].
  - change (contains (String c s) sub)
      with (startswith (String c s) sub || contains s sub).
    rewrite orb_true_iff, IH, startswith_spec. split.
    + intros [[post H] | (pre & post & H)].
      * by exists "", post.
      * exists (String c pre), post. simpl. by rewrite H.
    + intros ([|x pre] & post & H).
      * left. by exists post.
      * right. injection H as _ H. by exists pre, post.
Qed.

Lemma lower_char_idemp (c : ascii) : lower_char (lower_char c) = lower_char c.
Proof. by destruct c as [[] [] [] [] [] [] [] []]. Qed.

Lemma lower_idemp (s : string) : lower (lower s) = lower s.
Proof.
  induction s as [|c s IH]; simpl; [done | by rewrite lower_char_idemp, IH].
Qed.

Lemma lower_app (a b : string) : lower (a +:+ b) = lower a +:+ lower b.
Proof. induction a as [|c a IH]; simpl; [done | by rewrite IH]. Qed.

(** A split of [lower t] is the image of a split of [t]. *)
Lemma lower_app_inv (t a b : string) :
  lower t = a +:+ b → ∃ ta tb, t = ta +:+ tb ∧ lower ta = a ∧ lower tb = b.
Proof.
  revert t. induction a as [|c a IH]; intros t H; simpl in H.
  - by exists "", t.
  - destruct t as [|d t]; [discriminate H|].
    simpl in H. injection H as Hc H.
    destruct (IH t H) as (ta & tb & -> & Ha & Hb).
    exists (String d ta), tb. simpl. by rewrite Hc, Ha.
Qed.

(** The test of the source, [keyword in text.lower()], is occurrence up to
    letter case for a keyword that is already in lower case. *)
Lemma contains_lower_ci (k t : string) :
  lower k = k → contains (lower t) k = true ↔ occurs_ci k t.
Proof.
  intros Hk. rewrite contains_spec. unfold occurs_in, occurs_ci. split.
  - intros (pre & post & H).
    apply lower_app_inv in H as (tpre & rest & -> & _ & H).
    apply lower_app_inv in H as (tmid & tpost & -> & Hmid & _).
    exists tpre, tmid, tpost. by rewrite Hk.
  - intros (pre & mid & post & -> & Hmid).
    exists (lower pre), (lower post).
    by rewrite !lower_app, Hmid, Hk.
Qed.

End StrFacts.

(** * The keyword table and the classifier *)

Section Classifier.

Lemma any_true {A : Type} (p : A → bool) (xs : list A) :
  any p xs = true ↔ ∃ x, x ∈ xs ∧ p x = true.
Proof.
  unfold any. rewrite existsb_exists.
  split; intros (x & Hx & Hp); exists x; by rewrite ?list_elem_of_In in *.
Qed.

(** The invariant of the loop of [map_snippet_to_sdgs]. *)
Lemma elem_of_match_loop (text_lower : string) (items : list (string * sdg_entry))
    (acc : gset string) (C : string) :
  C ∈ foldl (match_step text_lower) acc items ↔
  C ∈ acc ∨ ∃ data, (C, data) ∈ items ∧
    any (λ keyword, Str.contains text_lower keyword) (keywords data) = true.
Proof.
  revert acc. induction items as [|[sdg data] items IH]; intros acc; simpl.
  - split; [by left | intros [H | (d & H & _)]; [done | by apply elem_of_nil in H]].
  - rewrite IH. split.
    + intros [Hacc | (d & Hin & Hany)].
      * destruct (any _ (keywords data)) eqn:Hk; [|by left].
        apply elem_of_union in Hacc as [Hacc | ->%elem_of_singleton]; [by left|].
        right. exists data. split; [apply list_elem_of_here | done].
      * right. exists d. split; [by apply list_elem_of_further | done].
    + intros [Hacc | (d & Hin & Hany)].
      * left. destruct (any _ (keywords data)); [|done].
        apply elem_of_union. by left.
      * apply elem_of_cons in Hin as [[= -> ->] | Hin].
        -- left. rewrite Hany. apply elem_of_union. right. by apply elem_of_singleton.
        -- right. by exists d.
Qed.

Lemma SDG_KEYWORDS_lowercase :
  Forall (λ item, Forall (λ k, Str.lower k = k) (keywords item.2)) SDG_KEYWORDS.
Proof. unfold SDG_KEYWORDS. repeat (constructor; simpl). Qed.

Lemma SDG_KEYWORDS_names_distinct : NoDup (SDG_KEYWORDS.*1).
Proof. by compute_done. Qed.

(** A dict has one value under a key. *)
Lemma items_functional {V : Type} (items : list (string * V)) (key : string) (v1 v2 : V) :
  NoDup (items.*1) → (key, v1) ∈ items → (key, v2) ∈ items → v1 = v2.
Proof.
  induction items as [|[a b] items IH]; simpl; intros Hnd H1 H2.
  - by apply elem_of_nil in H1.
  - apply NoDup_cons in Hnd as [Hfresh Hnd].
    apply elem_of_cons in H1 as [H1 | H1];
      apply elem_of_cons in H2 as [H2 | H2]; simplify_eq.
    + done.
    + destruct Hfresh. apply list_elem_of_fmap. by eexists (_, _).
    + destruct Hfresh. apply list_elem_of_fmap. by eexists (_, _).
    + by apply IH.
Qed.

(** Membership in the result of [map_snippet_to_sdgs]. *)
Lemma elem_of_map_snippet_to_sdgs (text C : string) :
  C ∈ map_snippet_to_sdgs text ↔
  ∃ data k, (C, data) ∈ SDG_KEYWORDS ∧ k ∈ keywords data ∧ occurs_ci k text.
Proof.
  unfold map_snippet_to_sdgs, matched_sdgs. cbv zeta.
  rewrite elem_of_elements, elem_of_match_loop. split.
  - intros [H | (data & Hin & Hany)]; [by apply not_elem_of_empty in H|].
    apply any_true in Hany as (k & Hk & Hc).
    exists data, k. split_and!; [done..|].
    apply StrFacts.contains_lower_ci; [|done].
    pose proof SDG_KEYWORDS_lowercase as Hlow.
    rewrite Forall_forall in Hlow. specialize (Hlow _ Hin).
    rewrite Forall_forall in Hlow. by apply Hlow.
  - intros (data & k & Hin & Hk & Hci). right. exists data. split; [done|].
    apply any_true. exists k. split; [done|].
    apply StrFacts.contains_lower_ci; [|done].
    pose proof SDG_KEYWORDS_lowercase as Hlow.
    rewrite Forall_forall in Hlow. specialize (Hlow _ Hin).
    rewrite Forall_forall in Hlow. by apply Hlow.
Qed.

Lemma map_snippet_to_sdgs_NoDup (text : string) : NoDup (map_snippet_to_sdgs text).
Proof. unfold map_snippet_to_sdgs. apply NoDup_elements. Qed.

Lemma map_snippet_to_sdgs_enumerates (text : string) :
  enumerates (matched_sdgs text) (map_snippet_to_sdgs text).
Proof. by unfold enumerates, map_snippet_to_sdgs. Qed.

End Classifier.

(** * Letter case, stated without the code's lowering *)

Section LetterCase.

Lemma nat_of_lower_char (c : ascii) :
  nat_of_ascii (Str.lower_char c)
  = (if (65 <=? nat_of_ascii c)%nat && (nat_of_ascii c <=? 90)%nat
     then nat_of_ascii c + 32 else nat_of_ascii c)%nat.
Proof.
  unfold Str.lower_char, Str.is_upper. cbv zeta.
  destruct ((65 <=? nat_of_ascii c)%nat && (nat_of_ascii c <=? 90)%nat) eqn:E; [|done].
  apply andb_true_iff in E as [_ E%Nat.leb_le].
  apply nat_ascii_embedding. lia.
Qed.

(** The lowering of the code identifies exactly the characters that are the
    same letter. *)
Lemma lower_char_same_letter (a b : ascii) :
  Str.lower_char a = Str.lower_char b ↔ same_letter a b.
Proof.
  assert (nat_of_ascii (Str.lower_char a) = nat_of_ascii (Str.lower_char b)
          ↔ same_letter a b) as Hnat.
  { rewrite !nat_of_lower_char. unfold same_letter. cbv zeta.
    destruct (65 <=? nat_of_ascii a)%nat eqn:A1; destruct (nat_of_ascii a <=? 90)%nat eqn:A2;
      destruct (65 <=? nat_of_ascii b)%nat eqn:B1; destruct (nat_of_ascii b <=? 90)%nat eqn:B2;
      cbn [andb];
      repeat match goal with
      | H : (_ <=? _)%nat = true |- _ => apply Nat.leb_le in H
      | H : (_ <=? _)%nat = false |- _ => apply Nat.leb_gt in H
      end; lia. }
  rewrite <- Hnat. split; [by intros -> |]. intros H.
  by rewrite <- (ascii_nat_embedding (Str.lower_char a)), H, ascii_nat_embedding.
Qed.

Lemma lower_eq_ignoring_case (s t : string) :
  Str.lower s = Str.lower t ↔ eq_ignoring_case s t.
Proof.
  revert t. induction s as [|a s IH]; intros [|b t]; simpl; try done.
  rewrite <- IH, <- lower_char_same_letter. split.
  - by intros [= -> ->].
  - by intros [-> ->].
Qed.

Lemma occurs_ci_ignoring_case (k t : string) :
  occurs_ci k t ↔ occurs_ignoring_case k t.
Proof.
  unfold occurs_ci, occurs_ignoring_case.
  by setoid_rewrite lower_eq_ignoring_case.
Qed.




End LetterCase.

(** * Properties of the classifier *)



(** C10. Keywords are shared between categories: "inclusion" is listed for
    Gender Equality (SDG5) and for Reduced Inequalities (SDG10), and a text in
    which it occurs, in any letter case, is mapped to both. *)
Theorem inclusion_triggers_SDG5_and_SDG10 (text : string) :
  occurs_ci "inclusion" text →
  (∃ d5 d10,
     ("Gender Equality (SDG5)", d5) ∈ SDG_KEYWORDS ∧ "inclusion" ∈ keywords d5 ∧
     ("Reduced Inequalities (SDG10)", d10) ∈ SDG_KEYWORDS ∧ "inclusion" ∈ keywords d10)
  ∧ "Gender Equality (SDG5)" ∈ map_snippet_to_sdgs text
  ∧ "Reduced Inequalities (SDG10)" ∈ map_snippet_to_sdgs text.
Proof.
  intros Hci.
  set (d5 := SdgEntry ["gender equality"; "women empowerment"; "diversity"; "inclusion"]
               "#ff3a21").
  set (d10 := SdgEntry ["inequality"; "equal opportunity"; "inclusion"; "fairness"]
                "#dd1367").
  assert (("Gender Equality (SDG5)", d5) ∈ SDG_KEYWORDS) as H5
    by (do 2 apply list_elem_of_further; apply list_elem_of_here).
  assert (("Reduced Inequalities (SDG10)", d10) ∈ SDG_KEYWORDS) as H10
    by (do 6 apply list_elem_of_further; apply list_elem_of_here).
  assert ("inclusion" ∈ keywords d5) as K5
    by (do 3 apply list_elem_of_further; apply list_elem_of_here).
  assert ("inclusion" ∈ keywords d10) as K10
    by (do 2 apply list_elem_of_further; apply list_elem_of_here).
  split_and!.
  - by exists d5, d10.
  - apply elem_of_map_snippet_to_sdgs. by exists d5, "inclusion".
  - apply elem_of_map_snippet_to_sdgs. by exists d10, "inclusion".
Qed.

Lemma inclusion_triggers_SDG5_and_SDG10_witness :
  "Gender Equality (SDG5)" ∈ map_snippet_to_sdgs "Diversity and INCLUSION at work"
  ∧ "Reduced Inequalities (SDG10)" ∈ map_snippet_to_sdgs "Diversity and INCLUSION at work".
Proof.
  apply (inclusion_triggers_SDG5_and_SDG10 "Diversity and INCLUSION at work").
  by exists "Diversity and ", "INCLUSION", " at work".
Defined.



(** * The sentiment labeller *)

Section SentimentFacts.

Local Open Scope float_scope.

(** The thresholds are the doubles nearest to 0.2 and -0.2. *)
Lemma threshold_bits :
  Prim2SF 0.2 = S754_finite false 7205759403792794 (-55)
  ∧ Prim2SF (-0.2) = S754_finite true 7205759403792794 (-55).
Proof. split; reflexivity. Qed.

(** A double below -0.2 is not above 0.2: the two tests of
    [analyze_sentiment] never hold together. *)
Lemma below_not_above (p : float) : (p <? -0.2) = true → (0.2 <? p) = false.
Proof.
  rewrite !ltb_spec.
  destruct threshold_bits as [-> ->].
  by destruct (Prim2SF p) as [ [] | [] | | [] m e].
Qed.

Variable TextBlob_sentiment : string → outcome (float * float).

Lemma analyze_sentiment_returns (text : string) (p s : float) :
  TextBlob_sentiment text = Returns (p, s) →
  analyze_sentiment TextBlob_sentiment text =
    Returns (Analysis (if 0.2 <? p then "Positive"
                       else if p <? -0.2 then "Negative" else "Neutral") p s).
Proof. intros H. unfold analyze_sentiment. by rewrite H. Qed.

Lemma analyze_sentiment_raises (text exc : string) :
  TextBlob_sentiment text = Raises exc →
  analyze_sentiment TextBlob_sentiment text = Raises exc.
Proof. intros H. unfold analyze_sentiment. by rewrite H. Qed.

End SentimentFacts.

(** C1. When the scorer returns polarity [p], the label is Positive exactly
    when [p > 0.2], Negative exactly when [p < -0.2] and Neutral in every other
    case; the scores are passed through; 0.21 is Positive, 0.2 is Neutral,
    -0.21 is Negative and -0.2 is Neutral. *)
Theorem analyze_sentiment_thresholds
    (TextBlob_sentiment : string → outcome (float * float)) (text : string) (p s : float) :
  TextBlob_sentiment text = Returns (p, s) →
  ∃ label,
    analyze_sentiment TextBlob_sentiment text = Returns (Analysis label p s)
    ∧ (label = "Positive" ↔ (0.2 <? p)%float = true)
    ∧ (label = "Negative" ↔ (p <? -0.2)%float = true)
    ∧ (label = "Neutral" ↔ (0.2 <? p)%float = false ∧ (p <? -0.2)%float = false)
    ∧ (p = 0.21%float → label = "Positive")
    ∧ (p = 0.2%float → label = "Neutral")
    ∧ (p = (-0.21)%float → label = "Negative")
    ∧ (p = (-0.2)%float → label = "Neutral").
Proof.
  intros H. eexists. split; [by apply analyze_sentiment_returns|].
  clear H.
  destruct (0.2 <? p)%float eqn:Hhi, (p <? -0.2)%float eqn:Hlo.
  - apply below_not_above in Hlo. congruence.
  - split_and!; first [intuition congruence | intros ->; vm_compute in Hhi, Hlo; congruence].
  - split_and!; first [intuition congruence | intros ->; vm_compute in Hhi, Hlo; congruence].
  - split_and!; first [intuition congruence | intros ->; vm_compute in Hhi, Hlo; congruence].
Qed.

Lemma analyze_sentiment_thresholds_witness :
  ∃ label,
    analyze_sentiment (λ _, Returns (0.21, 0.5)%float) "a good result"
      = Returns (Analysis label 0.21 0.5)
    ∧ (label = "Positive" ↔ (0.2 <? 0.21)%float = true)
    ∧ (label = "Negative" ↔ (0.21 <? -0.2)%float = true)
    ∧ (label = "Neutral" ↔ (0.2 <? 0.21)%float = false ∧ (0.21 <? -0.2)%float = false)
    ∧ (0.21%float = 0.21%float → label = "Positive")
    ∧ (0.21%float = 0.2%float → label = "Neutral")
    ∧ (0.21%float = (-0.21)%float → label = "Negative")
    ∧ (0.21%float = (-0.2)%float → label = "Neutral").
Proof.
  apply (analyze_sentiment_thresholds (λ _, Returns (0.21, 0.5)%float) "a good result").
  reflexivity.
Defined.

(** C4, as the code has it.  Matching categories cannot fail and gives the
    empty result on the empty text; when the scorer returns, classification
    returns, and a scorer that gives zero scores on the empty text makes it
    Neutral with polarity 0.0 and subjectivity 0.0; when the scorer raises,
    [analyze_sentiment] and the classification raise the same exception. *)
Theorem classification_total
    (TextBlob_sentiment : string → outcome (float * float)) (art : news_item) :
  map_snippet_to_sdgs "" = []
  ∧ (TextBlob_sentiment "" = Returns (0, 0)%float →
     analyze_sentiment TextBlob_sentiment "" = Returns (Analysis "Neutral" 0 0))
  ∧ (∀ p s, TextBlob_sentiment (summary art) = Returns (p, s) →
       ∃ label,
         analyze_sentiment TextBlob_sentiment (summary art) = Returns (Analysis label p s)
         ∧ classify TextBlob_sentiment art =
             Returns (Article art (map_snippet_to_sdgs (summary art)) (Analysis label p s)))
  ∧ (∀ exc, TextBlob_sentiment (summary art) = Raises exc →
       analyze_sentiment TextBlob_sentiment (summary art) = Raises exc
       ∧ classify TextBlob_sentiment art = Raises exc).
Proof.
  split_and!.
  - by vm_compute.
  - intros H. by rewrite (analyze_sentiment_returns _ _ _ _ H).
  - intros p s H. eexists. split; [by apply analyze_sentiment_returns|].
    unfold classify. by rewrite (analyze_sentiment_returns _ _ _ _ H).
  - intros exc H. split; [by apply analyze_sentiment_raises|].
    unfold classify. by rewrite (analyze_sentiment_raises _ _ _ H).
Qed.

Lemma classification_total_witness :
  analyze_sentiment (λ _, Returns (0, 0)%float) "" = Returns (Analysis "Neutral" 0 0)
  ∧ classify (λ _, Raises "scoring failed") (NewsItem "t" "#" "Unknown" "Unknown" "")
    = Raises "scoring failed".
Proof.
  split.
  - apply (classification_total (λ _, Returns (0, 0)%float)
             (NewsItem "t" "#" "Unknown" "Unknown" "")).
    reflexivity.
  - apply (classification_total (λ _, Raises "scoring failed")
             (NewsItem "t" "#" "Unknown" "Unknown" "") ).
    reflexivity.
Defined.

(** The scorer raises and no Neutral default is put in its place. *)
Lemma analyze_sentiment_no_fallback :
  let TextBlob_sentiment := λ _ : string, @Raises (float * float) "scoring failed" in
  TextBlob_sentiment "any text" = Raises "scoring failed"
  ∧ analyze_sentiment TextBlob_sentiment "any text" = Raises "scoring failed"
  ∧ analyze_sentiment TextBlob_sentiment "any text" ≠ Returns (Analysis "Neutral" 0 0).
Proof. by split_and!. Qed.

(** * The article filter *)

Section Filter.

Variables (selected_sdgs : list string) (sentiment_filter : string).

Lemma keeps_spec (art : article) :
  keeps selected_sdgs sentiment_filter art = true ↔
  passes_category_filter selected_sdgs art ∧ passes_sentiment_filter sentiment_filter art.
Proof.
  unfold keeps, passes_category_filter, passes_sentiment_filter.
  rewrite andb_true_iff, !orb_true_iff, any_true, !String.eqb_eq.
  assert (is_empty selected_sdgs = true ↔ selected_sdgs = []) as ->
    by (by destruct selected_sdgs).
  setoid_rewrite bool_decide_eq_true. done.
Qed.

Lemma elem_of_filtered_articles (articles : list article) (art : article) :
  art ∈ filtered_articles selected_sdgs sentiment_filter articles ↔
  art ∈ articles ∧ keeps selected_sdgs sentiment_filter art = true.
Proof. unfold filtered_articles. by rewrite !list_elem_of_In, filter_In. Qed.

Lemma filtered_articles_sublist (articles : list article) :
  filtered_articles selected_sdgs sentiment_filter articles `sublist_of` articles.
Proof.
  unfold filtered_articles.
  induction articles as [|art articles IH]; simpl; [done|].
  destruct (keeps _ _ art); by constructor.
Qed.

(** A subsequence made of kept articles only is inside the result. *)
Lemma filtered_articles_greatest (articles l : list article) :
  l `sublist_of` articles →
  Forall (λ art, keeps selected_sdgs sentiment_filter art = true) l →
  l `sublist_of` filtered_articles selected_sdgs sentiment_filter articles.
Proof.
  unfold filtered_articles.
  induction 1 as [|art l1 l2 Hsub IH|art l1 l2 Hsub IH]; intros Hall; simpl.
  - done.
  - apply Forall_cons in Hall as [-> Hall]. constructor. by apply IH.
  - destruct (keeps _ _ art); [constructor|]; by apply IH.
Qed.

Lemma filter_twice {A : Type} (f : A → bool) (l : list A) :
  List.filter f (List.filter f l) = List.filter f l.
Proof.
  induction l as [|x l IH]; simpl; [done|].
  destruct (f x) eqn:Hx; simpl; [|done]. by rewrite Hx, IH.
Qed.

End Filter.

(** C5. The filter returns exactly the articles that pass both the category
    filter and the sentiment filter, as a subsequence of the input in the
    input's order: an article is in the result iff it is in the input and
    passes both; the result is a subsequence of the input, all of whose
    articles pass; and it contains every subsequence of passing articles. *)
Theorem filtered_articles_spec (selected_sdgs : list string) (sentiment_filter : string)
    (articles : list article) :
  let passes art :=
    passes_category_filter selected_sdgs art ∧ passes_sentiment_filter sentiment_filter art in
  let result := filtered_articles selected_sdgs sentiment_filter articles in
  (∀ art, art ∈ result ↔ art ∈ articles ∧ passes art)
  ∧ result `sublist_of` articles
  ∧ Forall passes result
  ∧ (∀ l, l `sublist_of` articles → Forall passes l → l `sublist_of` result).
Proof.
  intros passes result. split_and!.
  - intros art. unfold result, passes.
    by rewrite elem_of_filtered_articles, keeps_spec.
  - apply filtered_articles_sublist.
  - apply Forall_forall. intros art Hin.
    apply elem_of_filtered_articles in Hin as [_ Hk]. by apply keeps_spec.
  - intros l Hsub Hall. apply filtered_articles_greatest; [done|].
    eapply Forall_impl; [done|]. intros art Hp. by apply keeps_spec.
Qed.

(** C8. Filtering a second time with the same arguments changes nothing, and
    with no category selected and the choice All the filter returns its
    input. *)
Theorem filtered_articles_idempotent_identity (selected_sdgs : list string)
    (sentiment_filter : string) (articles : list article) :
  filtered_articles selected_sdgs sentiment_filter
    (filtered_articles selected_sdgs sentiment_filter articles)
  = filtered_articles selected_sdgs sentiment_filter articles
  ∧ filtered_articles [] "All" articles = articles.
Proof.
  split.
  - apply filter_twice.
  - unfold filtered_articles. induction articles as [|art articles IH]; [done|].
    change (List.filter (keeps [] "All") (art :: articles))
      with (art :: List.filter (keeps [] "All") articles).
    by rewrite IH.
Qed.

(** * The SDG tally *)

Section Tally.

Implicit Types (counts : gmap string nat) (l : list string) (C sdg : string).

Lemma bump_bump (a b : nat) (entry : option nat) :
  bump b (bump a entry) = bump (a + b) entry.
Proof.
  destruct a as [|a]; [done|].
  destruct b as [|b]; simpl; f_equal; lia.
Qed.

Lemma lookup_increment counts sdg C :
  increment counts sdg !! C =
  bump (if bool_decide (sdg = C) then 1 else 0) (counts !! C).
Proof.
  unfold increment. case_bool_decide as Heq.
  - subst. by rewrite lookup_insert_eq.
  - by rewrite lookup_insert_ne.
Qed.

(** The inner loop, [for sdg in art["sdgs"]]. *)
Lemma lookup_foldl_increment l counts C :
  foldl increment counts l !! C = bump (occurrences C l) (counts !! C).
Proof.
  revert counts. induction l as [|sdg l IH]; intros counts; [done|].
  simpl. by rewrite IH, lookup_increment, bump_bump.
Qed.

(** The outer loop, [for art in articles]. *)
Lemma lookup_tally_loop (articles : list article) counts C :
  foldl (λ counts art, foldl increment counts (sdgs art)) counts articles !! C
  = bump (mentions C articles) (counts !! C).
Proof.
  revert counts. induction articles as [|art articles IH]; intros counts; [done|].
  simpl. rewrite IH, lookup_foldl_increment, bump_bump. done.
Qed.

Lemma lookup_sdg_counts (articles : list article) C :
  sdg_counts articles !! C = bump (mentions C articles) None.
Proof. unfold sdg_counts. by rewrite lookup_tally_loop, lookup_empty. Qed.

Lemma occurrences_absent l C : C ∉ l → occurrences C l = 0.
Proof.
  induction l as [|x l IH]; [done|]. intros Hnotin.
  apply not_elem_of_cons in Hnotin as [Hne Hnotin]. simpl.
  rewrite bool_decide_eq_false_2 by done. by rewrite IH.
Qed.

(** In a list without repetition a category counts once. *)
Lemma occurrences_NoDup l C :
  NoDup l → occurrences C l = if bool_decide (C ∈ l) then 1 else 0.
Proof.
  induction 1 as [|x l Hfresh Hnd IH]; [done|]. simpl.
  destruct (decide (x = C)) as [-> | Hne].
  - rewrite (bool_decide_eq_true_2 (C = C)) by done.
    rewrite occurrences_absent by done.
    by rewrite bool_decide_eq_true_2 by apply list_elem_of_here.
  - rewrite (bool_decide_eq_false_2 (x = C)) by done.
    rewrite IH. destruct (decide (C ∈ l)) as [Hin | Hnotin].
    + rewrite !bool_decide_eq_true_2; [done | by apply list_elem_of_further | done].
    + rewrite !bool_decide_eq_false_2; [done | | done].
      intros [?|?]%elem_of_cons; congruence.
Qed.

Lemma mentions_cons (art : article) (articles : list article) C :
  mentions C (art :: articles) = occurrences C (sdgs art) + mentions C articles.
Proof. done. Qed.

Lemma articles_matching_cons (art : article) (articles : list article) C :
  articles_matching C (art :: articles)
  = (if bool_decide (C ∈ sdgs art) then 1 else 0) + articles_matching C articles.
Proof. unfold articles_matching. simpl. by destruct (bool_decide (C ∈ sdgs art)). Qed.

Lemma mentions_NoDup (articles : list article) C :
  Forall (λ art, NoDup (sdgs art)) articles →
  mentions C articles = articles_matching C articles.
Proof.
  induction 1 as [|art articles Hnd _ IH]; [done|].
  by rewrite mentions_cons, articles_matching_cons, IH, (occurrences_NoDup _ _ Hnd).
Qed.

Lemma mentions_permutation (articles articles' : list article) C :
  articles ≡ₚ articles' → mentions C articles = mentions C articles'.
Proof. intros Hperm. unfold mentions. by rewrite Hperm. Qed.

Lemma for_each_returns {A B : Type} (f : A → outcome B) (xs : list A) (ys : list B) :
  for_each f xs = Returns ys → Forall2 (λ x y, f x = Returns y) xs ys.
Proof.
  revert ys. induction xs as [|x xs IH]; intros ys; simpl.
  - intros [= <-]. constructor.
  - unfold mbind, outcome_bind, mret, outcome_ret.
    destruct (f x) as [y|exc] eqn:Hx; [|done].
    destruct (for_each f xs) as [ys'|exc]; [|done].
    intros [= <-]. constructor; [done | by apply IH].
Qed.

Lemma classify_sdgs (scorer : string → outcome (float * float))
    (item : news_item) (art : article) :
  classify scorer item = Returns art → sdgs art = map_snippet_to_sdgs (summary item).
Proof.
  unfold classify, mbind, outcome_bind, mret, outcome_ret.
  destruct (analyze_sentiment scorer (summary item)) as [a|exc]; [|done].
  by intros [= <-].
Qed.

(** What [main] computes leaves every list of categories free of repetition. *)
Lemma classify_all_NoDup (scorer : string → outcome (float * float))
    (items : list news_item) (articles : list article) :
  classify_all scorer items = Returns articles →
  Forall (λ art, NoDup (sdgs art)) articles.
Proof.
  intros H%for_each_returns.
  induction H as [|item art items articles Hart _ IH]; constructor; [|done].
  rewrite (classify_sdgs _ _ _ Hart). apply map_snippet_to_sdgs_NoDup.
Qed.

End Tally.

(** C6. For articles whose categories are sets (each listed once, as
    [map_snippet_to_sdgs] returns them), the tally maps a category to the number
    of articles that have it, and has no entry for a category that no article
    has. *)
Theorem sdg_counts_spec (articles : list article) (C : string) :
  Forall (λ art, NoDup (sdgs art)) articles →
  (articles_matching C articles = 0 → sdg_counts articles !! C = None)
  ∧ (0 < articles_matching C articles →
     sdg_counts articles !! C = Some (articles_matching C articles)).
Proof.
  intros Hset. rewrite lookup_sdg_counts, (mentions_NoDup _ _ Hset).
  destruct (articles_matching C articles); simpl; split; [done | lia | done | done].
Qed.

Lemma sdg_counts_spec_witness :
  let neutral := Analysis "Neutral" 0 0 in
  let item := NewsItem "t" "#" "Unknown" "Unknown" "s" in
  let articles :=
    [ Article item ["Gender Equality (SDG5)"; "Climate Action (SDG13)"] neutral;
      Article item [] neutral;
      Article item ["Climate Action (SDG13)"] neutral ] in
  sdg_counts articles !! "Climate Action (SDG13)" = Some 2
  ∧ sdg_counts articles !! "Gender Equality (SDG5)" = Some 1
  ∧ sdg_counts articles !! "No Poverty (SDG1)" = None.
Proof.
  intros neutral item articles.
  assert (Forall (λ art, NoDup (sdgs art)) articles) as Hset.
  { repeat constructor; by compute_done. }
  split_and!.
  - apply (sdg_counts_spec articles "Climate Action (SDG13)" Hset). vm_compute. lia.
  - apply (sdg_counts_spec articles "Gender Equality (SDG5)" Hset). vm_compute. lia.
  - apply (sdg_counts_spec articles "No Poverty (SDG1)" Hset). reflexivity.
Defined.

(** C7. The tally of a permutation of the articles is the tally of the
    articles. *)
Theorem sdg_counts_permutation (articles articles' : list article) :
  articles ≡ₚ articles' → sdg_counts articles = sdg_counts articles'.
Proof.
  intros Hperm. apply map_eq. intros C.
  by rewrite !lookup_sdg_counts, (mentions_permutation _ _ _ Hperm).
Qed.

Lemma sdg_counts_permutation_witness :
  let neutral := Analysis "Neutral" 0 0 in
  let item := NewsItem "t" "#" "Unknown" "Unknown" "s" in
  let a := Article item ["Gender Equality (SDG5)"; "Climate Action (SDG13)"] neutral in
  let b := Article item ["Climate Action (SDG13)"] neutral in
  sdg_counts [a; b] = sdg_counts [b; a].
Proof.
  intros neutral item a b.
  apply (sdg_counts_permutation [a; b] [b; a]).
  apply perm_swap.
Defined.

(** * Enumerations of the matched set *)

Section Enumeration.

(** An enumeration of a set holds the elements of the set, whatever its
    order. *)
Lemma enumerates_list_to_set (s : gset string) (l : list string) :
  enumerates s l → list_to_set l = s.
Proof.
  unfold enumerates. intros Hperm. apply set_eq. intros x.
  by rewrite elem_of_list_to_set, Hperm, elem_of_elements.
Qed.

Lemma enumerates_NoDup (s : gset string) (l : list string) :
  enumerates s l → NoDup l.
Proof. unfold enumerates. intros ->. apply NoDup_elements. Qed.

End Enumeration.

(** * The scenarios of the specification *)

Example scenario_energy_and_equality :
  list_to_set (map_snippet_to_sdgs
    "The company invested in renewable energy and improved gender equality.")
  = ({[ "Affordable and Clean Energy (SDG7)"; "Gender Equality (SDG5)" ]} : gset string).
Proof. by vm_compute. Qed.

Example scenario_nothing_relevant (TextBlob_sentiment : string → outcome (float * float))
    (articles : list article) :
  classify_all TextBlob_sentiment
    [ NewsItem "a" "#" "Unknown" "Unknown" "";
      NewsItem "b" "#" "Unknown" "Unknown" "no relevant content here" ] = Returns articles →
  sdg_counts articles = ∅.
Proof.
  intros H%for_each_returns.
  apply Forall2_cons_inv_l in H as (a & rest & Ha & H & ->).
  apply Forall2_cons_inv_l in H as (b & rest' & Hb & H & ->).
  apply Forall2_nil_inv_l in H as ->.
  apply classify_sdgs in Ha, Hb.
  unfold sdg_counts. simpl. rewrite Ha, Hb. done.
Qed.

(** * Further properties of the code of makeit.py *)

(** ** The loop that classifies the scraped articles *)

Section ClassifyAll.

Variable TextBlob_sentiment : string → outcome (float * float).

Lemma analyze_sentiment_inv (text : string) (a : analysis) :
  analyze_sentiment TextBlob_sentiment text = Returns a →
  ∃ p s, TextBlob_sentiment text = Returns (p, s) ∧ polarity a = p ∧ subjectivity a = s
         ∧ sentiment a = (if (0.2 <? p)%float then "Positive"
                          else if (p <? -0.2)%float then "Negative" else "Neutral").
Proof.
  unfold analyze_sentiment, mbind, outcome_bind, mret, outcome_ret.
  destruct (TextBlob_sentiment text) as [[p s]|exc]; [|done].
  intros [= <-]. by exists p, s.
Qed.

Lemma analyze_sentiment_label (text : string) (a : analysis) :
  analyze_sentiment TextBlob_sentiment text = Returns a →
  sentiment a ∈ sentiment_labels.
Proof.
  intros (p & s & _ & _ & _ & ->)%analyze_sentiment_inv. unfold sentiment_labels.
  destruct (0.2 <? p)%float; [|destruct (p <? -0.2)%float];
    repeat first [apply list_elem_of_here | apply list_elem_of_further].
Qed.

Lemma classify_returns_iff (item : news_item) (art : article) :
  classify TextBlob_sentiment item = Returns art ↔
  ∃ a, analyze_sentiment TextBlob_sentiment (summary item) = Returns a
       ∧ art = Article item (map_snippet_to_sdgs (summary item)) a.
Proof.
  unfold classify, mbind, outcome_bind, mret, outcome_ret.
  destruct (analyze_sentiment TextBlob_sentiment (summary item)) as [a|exc].
  - split; [intros [= <-]; by exists a | by intros (a' & [= <-] & ->)].
  - split; [done | by intros (a' & ? & _)].
Qed.

Lemma classify_raises_iff (item : news_item) (exc : string) :
  classify TextBlob_sentiment item = Raises exc ↔
  TextBlob_sentiment (summary item) = Raises exc.
Proof.
  unfold classify, analyze_sentiment, mbind, outcome_bind, mret, outcome_ret.
  destruct (TextBlob_sentiment (summary item)) as [[p s]|e]; [done|].
  split; by intros [= ->].
Qed.

Lemma for_each_all_return {A B : Type} (f : A → outcome B) (xs : list A) :
  Forall (λ x, ∃ y, f x = Returns y) xs →
  ∃ ys, for_each f xs = Returns ys ∧ length ys = length xs.
Proof.
  induction 1 as [|x xs [y Hy] _ (ys & Hys & Hlen)]; [by exists []|].
  exists (y :: ys). simpl. unfold mbind, outcome_bind, mret, outcome_ret.
  rewrite Hy, Hys. by rewrite Hlen.
Qed.

Lemma for_each_first_failure {A B : Type} (f : A → outcome B)
    (pre : list A) (x : A) (post : list A) (exc : string) :
  Forall (λ x, ∃ y, f x = Returns y) pre →
  f x = Raises exc →
  for_each f (pre ++ x :: post) = Raises exc.
Proof.
  intros Hpre Hx. induction Hpre as [|x' pre [y Hy] _ IH]; simpl;
    unfold mbind, outcome_bind, mret, outcome_ret.
  - by rewrite Hx.
  - rewrite Hy. fold (@for_each A B). by rewrite IH.
Qed.

End ClassifyAll.

(** X1. Every label that [analyze_sentiment] returns is one of Positive, Negative
    and Neutral, so the emoji dict of [display_article] has an entry for it and
    its default, the empty string, is never shown; any other label gets the
    default. *)
Theorem analyze_sentiment_label_has_emoji
    (TextBlob_sentiment : string → outcome (float * float)) (text : string) (a : analysis) :
  analyze_sentiment TextBlob_sentiment text = Returns a →
  sentiment a ∈ sentiment_labels
  ∧ sentiment_emoji (sentiment a) ≠ ""
  ∧ (∀ label, label ∉ sentiment_labels → sentiment_emoji label = "").
Proof.
  intros Ha%analyze_sentiment_label. split_and!; [done| |].
  - unfold sentiment_labels in Ha.
    repeat (apply elem_of_cons in Ha as [-> | Ha]; [by vm_compute|]).
    by apply elem_of_nil in Ha.
  - intros label Hnot. unfold sentiment_emoji. cbn [dict_get].
    repeat match goal with
    | |- context [String.eqb ?k label] =>
        destruct (String.eqb_spec k label) as [<- | _];
        [destruct Hnot; unfold sentiment_labels;
         repeat first [apply list_elem_of_here | apply list_elem_of_further]|]
    end.
    done.
Qed.

Lemma analyze_sentiment_label_has_emoji_witness :
  sentiment (Analysis "Negative" (-0.5) 0.3) ∈ sentiment_labels
  ∧ sentiment_emoji (sentiment (Analysis "Negative" (-0.5) 0.3)) ≠ ""
  ∧ (∀ label, label ∉ sentiment_labels → sentiment_emoji label = "").
Proof.
  apply (analyze_sentiment_label_has_emoji (λ _, Returns (-0.5, 0.3)%float) "a bad result").
  reflexivity.
Defined.

(** X2. When the loop of [main] over the scraped articles ends, there is one
    classified article for each scraped one, in the same order, carrying the
    categories and the analysis of its own summary. *)
Theorem classify_all_keeps_articles
    (TextBlob_sentiment : string → outcome (float * float))
    (items : list news_item) (articles : list article) :
  classify_all TextBlob_sentiment items = Returns articles →
  art_item <$> articles = items
  ∧ length articles = length items
  ∧ Forall (λ art,
      sdgs art = map_snippet_to_sdgs (summary (art_item art))
      ∧ analyze_sentiment TextBlob_sentiment (summary (art_item art))
        = Returns (art_sentiment art)) articles.
Proof.
  intros H%for_each_returns.
  induction H as [|item art items articles Hart _ (IH1 & IH2 & IH3)]; [done|].
  apply classify_returns_iff in Hart as (a & Ha & ->).
  split_and!.
  - by rewrite fmap_cons, IH1.
  - cbn [length]. by rewrite IH2.
  - by constructor.
Qed.

Lemma classify_all_keeps_articles_witness :
  let scorer := λ _ : string, Returns (0.5, 0.5)%float in
  let a := NewsItem "t1" "#" "Unknown" "Unknown" "Solar jobs" in
  let b := NewsItem "t2" "#" "Unknown" "Unknown" "nothing" in
  ∃ articles, classify_all scorer [a; b] = Returns articles
              ∧ art_item <$> articles = [a; b].
Proof.
  intros scorer a b. eexists. split; [reflexivity|].
  eapply (classify_all_keeps_articles scorer [a; b]). reflexivity.
Defined.

(** X3. The loop has no handler: it returns when the scorer returns on every
    summary, and otherwise it stops with the exception of the first summary on
    which the scorer raises, whatever comes after it. *)
Theorem classify_all_first_failure
    (TextBlob_sentiment : string → outcome (float * float)) (items : list news_item) :
  (Forall (λ item, ∃ r, TextBlob_sentiment (summary item) = Returns r) items →
   ∃ articles, classify_all TextBlob_sentiment items = Returns articles)
  ∧ (∀ pre item post exc,
       items = (pre ++ item :: post)%list →
       Forall (λ item, ∃ r, TextBlob_sentiment (summary item) = Returns r) pre →
       TextBlob_sentiment (summary item) = Raises exc →
       classify_all TextBlob_sentiment items = Raises exc).
Proof.
  assert (∀ l, Forall (λ item, ∃ r, TextBlob_sentiment (summary item) = Returns r) l →
               Forall (λ item, ∃ art, classify TextBlob_sentiment item = Returns art) l)
    as Hall.
  { intros l Hl. eapply Forall_impl; [done|]. intros item [[p s] Hr]. eexists.
    apply classify_returns_iff. eexists. split; [|done].
    by apply analyze_sentiment_returns. }
  split.
  - intros H%Hall. apply for_each_all_return in H as (articles & H & _).
    by exists articles.
  - intros pre item post exc -> Hpre%Hall Hexc. unfold classify_all.
    apply for_each_first_failure; [done|]. by apply classify_raises_iff.
Qed.

Lemma classify_all_first_failure_witness :
  let scorer := λ text : string,
    if String.eqb text "bad" then Raises "first" else
    if String.eqb text "worse" then Raises "second" else Returns (0.5, 0.5)%float in
  let item text := NewsItem "t" "#" "Unknown" "Unknown" text in
  classify_all scorer [item "fine"; item "bad"; item "worse"] = Raises "first".
Proof.
  intros scorer item.
  apply (proj2 (classify_all_first_failure scorer [item "fine"; item "bad"; item "worse"])
           [item "fine"] (item "bad") [item "worse"] "first").
  - reflexivity.
  - constructor; [|constructor]. by exists (0.5, 0.5)%float.
  - reflexivity.
Defined.

(** ** The two selectors of the article filter *)

Section FilterMore.

Lemma filter_filter_andb {A : Type} (f g : A → bool) (l : list A) :
  List.filter f (List.filter g l) = List.filter (λ x, g x && f x) l.
Proof.
  induction l as [|x l IH]; [done|]. simpl.
  destruct (g x); simpl; [|done]. destruct (f x); by rewrite IH.
Qed.

(** The condition of the comprehension is the conjunction of a condition on
    the categories and a condition on the label. *)
Lemma keeps_split (selected_sdgs : list string) (sentiment_filter : string) (art : article) :
  keeps selected_sdgs sentiment_filter art
  = keeps selected_sdgs "All" art && keeps [] sentiment_filter art.
Proof.
  unfold keeps. cbn [is_empty orb].
  change (String.eqb "All" "All") with true. cbn [orb andb].
  by rewrite andb_true_r.
Qed.

Lemma keeps_label (selected_sdgs : list string) (label : string) (art : article) :
  label ≠ "All" →
  keeps selected_sdgs label art
  = keeps selected_sdgs "All" art && String.eqb (sentiment (art_sentiment art)) label.
Proof.
  intros Hne. unfold keeps.
  change (String.eqb "All" "All") with true.
  destruct (String.eqb_spec label "All") as [->|_]; [done|].
  cbn [orb]. by rewrite andb_true_r.
Qed.

End FilterMore.

(** X4. The category selector and the sentiment selector act independently:
    filtering on both at once is filtering on one and then on the other, in
    either order, and any two filters commute. *)
Theorem filtered_articles_compose (selected_sdgs : list string) (sentiment_filter : string)
    (articles : list article) :
  filtered_articles selected_sdgs sentiment_filter articles
    = filtered_articles selected_sdgs "All" (filtered_articles [] sentiment_filter articles)
  ∧ filtered_articles selected_sdgs sentiment_filter articles
    = filtered_articles [] sentiment_filter (filtered_articles selected_sdgs "All" articles)
  ∧ (∀ selected_sdgs' sentiment_filter',
       filtered_articles selected_sdgs sentiment_filter
         (filtered_articles selected_sdgs' sentiment_filter' articles)
       = filtered_articles selected_sdgs' sentiment_filter'
           (filtered_articles selected_sdgs sentiment_filter articles)).
Proof.
  unfold filtered_articles. split_and!.
  - rewrite filter_filter_andb. apply filter_ext. intros art.
    by rewrite (keeps_split selected_sdgs), andb_comm.
  - rewrite filter_filter_andb. apply filter_ext. intros art.
    by rewrite (keeps_split selected_sdgs).
  - intros sel' sf'. rewrite !filter_filter_andb. apply filter_ext. intros art.
    apply andb_comm.
Qed.

(** X5. For articles labelled by [analyze_sentiment], the three sentiment choices
    split what the choice All shows: every article shown under All is shown
    under exactly one of Positive, Neutral and Negative. *)
Theorem filtered_articles_by_sentiment (selected_sdgs : list string)
    (articles : list article) :
  Forall (λ art, sentiment (art_sentiment art) ∈ sentiment_labels) articles →
  filtered_articles selected_sdgs "All" articles
  ≡ₚ (filtered_articles selected_sdgs "Positive" articles
      ++ filtered_articles selected_sdgs "Neutral" articles
      ++ filtered_articles selected_sdgs "Negative" articles)%list.
Proof.
  unfold filtered_articles.
  induction 1 as [|art articles Hlabel _ IH]; [done|]. cbn [List.filter].
  rewrite !(keeps_label _ "Positive"), !(keeps_label _ "Neutral"),
    !(keeps_label _ "Negative") by done.
  destruct (keeps selected_sdgs "All" art); cbn [andb]; [|done].
  unfold sentiment_labels in Hlabel.
  repeat (apply elem_of_cons in Hlabel as [-> | Hlabel]);
    [..|by apply elem_of_nil in Hlabel];
    simpl (String.eqb _ _); cbv iota.
  - by rewrite IH.
  - rewrite IH, !(assoc_L (++)). apply Permutation_middle.
  - rewrite IH. apply (Permutation_middle _ (_ ++ _)).
Qed.

Lemma filtered_articles_by_sentiment_witness :
  let item := NewsItem "t" "#" "Unknown" "Unknown" "s" in
  let pos := Article item ["Climate Action (SDG13)"] (Analysis "Positive" 0.5 0.5) in
  let neg := Article item ["Climate Action (SDG13)"] (Analysis "Negative" (-0.5) 0.5) in
  let neu := Article item [] (Analysis "Neutral" 0 0) in
  filtered_articles [] "All" [neg; neu; pos] ≡ₚ [pos; neu; neg].
Proof.
  intros item pos neg neu.
  apply (filtered_articles_by_sentiment [] [neg; neu; pos]).
  repeat constructor.
Defined.

(** ** The keys and the values of the tally *)

Section TallyMore.

Implicit Types (C : string) (l : list string) (articles : list article).

Lemma occurrences_pos l C : 0 < occurrences C l ↔ C ∈ l.
Proof.
  induction l as [|x l IH]; simpl.
  - split; [lia | by intros ?%elem_of_nil].
  - rewrite elem_of_cons, <- IH. case_bool_decide; split; intros; try lia.
    + by left.
    + destruct H0 as [-> | ?]; [done | lia].
Qed.

Lemma occurrences_le_length l C : (occurrences C l ≤ length l)%nat.
Proof. induction l as [|x l IH]; simpl; [done|]. case_bool_decide; lia. Qed.

Lemma mentions_pos articles C :
  0 < mentions C articles ↔ ∃ art, art ∈ articles ∧ C ∈ sdgs art.
Proof.
  induction articles as [|art articles IH].
  - split; [by unfold mentions; simpl; lia | by intros (? & ?%elem_of_nil & _)].
  - rewrite mentions_cons. split.
    + intros H. destruct (decide (0 < occurrences C (sdgs art))) as [Hocc | Hocc].
      * exists art. split; [apply list_elem_of_here | by apply occurrences_pos].
      * destruct (proj1 IH) as (art' & Hin & HC); [lia|].
        exists art'. split; [by apply list_elem_of_further | done].
    + intros (art' & [-> | Hin]%elem_of_cons & HC).
      * apply occurrences_pos in HC. lia.
      * assert (0 < mentions C articles) by (apply IH; by exists art'). lia.
Qed.

Lemma mentions_le articles C :
  (mentions C articles ≤ sum_list ((λ art, length (sdgs art)) <$> articles))%nat.
Proof.
  induction articles as [|art articles IH]; [done|].
  rewrite mentions_cons, fmap_cons. simpl.
  pose proof (occurrences_le_length (sdgs art) C). lia.
Qed.

Lemma articles_matching_le articles C : (articles_matching C articles ≤ length articles)%nat.
Proof.
  induction articles as [|art articles IH]; [done|].
  rewrite articles_matching_cons. simpl. case_bool_decide; lia.
Qed.

Lemma lookup_sdg_counts_Some articles C n :
  sdg_counts articles !! C = Some n ↔ 0 < n ∧ n = mentions C articles.
Proof.
  rewrite lookup_sdg_counts. destruct (mentions C articles) as [|k]; simpl.
  - split; [done | lia].
  - split; [intros [= <-]; lia | by intros [_ ->]].
Qed.

Lemma elem_of_dom_sdg_counts articles C :
  C ∈ dom (sdg_counts articles) ↔ ∃ art, art ∈ articles ∧ C ∈ sdgs art.
Proof.
  rewrite elem_of_dom, <- mentions_pos. unfold is_Some.
  setoid_rewrite lookup_sdg_counts_Some. split.
  - intros (n & Hn & ->). done.
  - intros Hpos. by exists (mentions C articles).
Qed.

Lemma elem_of_concat_sdgs articles C :
  C ∈ concat (sdgs <$> articles) ↔ ∃ art, art ∈ articles ∧ C ∈ sdgs art.
Proof.
  induction articles as [|art articles IH].
  - split; [by intros ?%elem_of_nil | by intros (? & ?%elem_of_nil & _)].
  - rewrite fmap_cons. cbn [concat]. rewrite elem_of_app, IH. split.
    + intros [HC | (art' & Hin & HC)].
      * exists art. split; [apply list_elem_of_here | done].
      * exists art'. split; [by apply list_elem_of_further | done].
    + intros (art' & [-> | Hin]%elem_of_cons & HC); [by left|].
      right. by exists art'.
Qed.

Lemma elem_of_present_sdgs articles C :
  C ∈ present_sdgs articles ↔ ∃ art, art ∈ articles ∧ C ∈ sdgs art.
Proof.
  unfold present_sdgs.
  by rewrite merge_sort_Permutation, elem_of_elements, elem_of_list_to_set,
    elem_of_concat_sdgs.
Qed.

Lemma sdg_counts_empty articles :
  sdg_counts articles = ∅ ↔ Forall (λ art, sdgs art = []) articles.
Proof.
  rewrite <- dom_empty_iff_L, Forall_forall. split.
  - intros Hdom art Hin. destruct (sdgs art) as [|C l] eqn:E; [done|].
    assert (C ∈ dom (sdg_counts articles)) as HC.
    { apply elem_of_dom_sdg_counts. exists art. split; [done|].
      rewrite E. apply list_elem_of_here. }
    rewrite Hdom in HC. by apply not_elem_of_empty in HC.
  - intros Hnone. apply set_eq. intros C. rewrite elem_of_dom_sdg_counts. split.
    + intros (art & Hin & HC). rewrite (Hnone art Hin) in HC. by apply elem_of_nil in HC.
    + by intros ?%not_elem_of_empty.
Qed.

End TallyMore.

(** X6. The tally is empty, and [main] reports that no SDG-related content was
    found, exactly when no article has a category; its keys are the categories
    that some article has. *)
Theorem sdg_counts_empty_iff (articles : list article) :
  (sdg_counts articles = ∅ ↔ Forall (λ art, sdgs art = []) articles)
  ∧ (∀ C, C ∈ dom (sdg_counts articles) ↔ ∃ art, art ∈ articles ∧ C ∈ sdgs art).
Proof.
  split; [apply sdg_counts_empty | apply elem_of_dom_sdg_counts].
Qed.

(** X7. A count in the tally is never 0; when the categories of every article are
    listed without repetition it is at most the number of articles, and in any
    case at most the number of categories listed in all articles. *)
Theorem sdg_counts_bounds (articles : list article) (C : string) (n : nat) :
  sdg_counts articles !! C = Some n →
  (1 ≤ n)%nat
  ∧ (n ≤ sum_list ((λ art, length (sdgs art)) <$> articles))%nat
  ∧ (Forall (λ art, NoDup (sdgs art)) articles → (n ≤ length articles)%nat).
Proof.
  intros [Hpos ->]%lookup_sdg_counts_Some. split_and!.
  - lia.
  - apply mentions_le.
  - intros Hset. rewrite (mentions_NoDup _ _ Hset). apply articles_matching_le.
Qed.

Lemma sdg_counts_bounds_witness :
  let neutral := Analysis "Neutral" 0 0 in
  let item := NewsItem "t" "#" "Unknown" "Unknown" "s" in
  let articles :=
    [ Article item ["Gender Equality (SDG5)"; "Climate Action (SDG13)"] neutral;
      Article item ["Climate Action (SDG13)"] neutral ] in
  (1 ≤ 2)%nat ∧ (2 ≤ sum_list ((λ art, length (sdgs art)) <$> articles))%nat
  ∧ (Forall (λ art, NoDup (sdgs art)) articles → (2 ≤ length articles)%nat).
Proof.
  intros neutral item articles.
  apply (sdg_counts_bounds articles "Climate Action (SDG13)" 2).
  by vm_compute.
Defined.

(** X8. The categories offered by the selector, [present_sdgs], are the keys of
    the tally, each once, in ascending order. *)
Theorem present_sdgs_sorted_keys (articles : list article) :
  (∀ C, C ∈ present_sdgs articles ↔ C ∈ dom (sdg_counts articles))
  ∧ NoDup (present_sdgs articles)
  ∧ StronglySorted String.le (present_sdgs articles)
  ∧ length (present_sdgs articles) = size (sdg_counts articles).
Proof.
  assert (present_sdgs articles ≡ₚ elements (dom (sdg_counts articles))) as Hperm.
  { unfold present_sdgs. rewrite merge_sort_Permutation. f_equiv.
    intros C.
    by rewrite elem_of_list_to_set, elem_of_concat_sdgs, elem_of_dom_sdg_counts. }
  split_and!.
  - intros C. by rewrite elem_of_present_sdgs, elem_of_dom_sdg_counts.
  - rewrite Hperm. apply NoDup_elements.
  - apply StronglySorted_merge_sort; apply _.
  - rewrite Hperm. by rewrite <- size_dom.
Qed.

(** X9. With the selector left at its default, every present category selected,
    and the sentiment choice All, the filter shows the articles that have at
    least one category and hides the ones that have none (the tally is not
    empty where the filter runs). *)
Theorem filtered_articles_default_selection (articles : list article) :
  sdg_counts articles ≠ ∅ →
  filtered_articles (present_sdgs articles) "All" articles
  = List.filter (λ art, negb (is_empty (sdgs art))) articles.
Proof.
  intros Hne. unfold filtered_articles.
  assert (is_empty (present_sdgs articles) = false) as Hsel.
  { destruct (present_sdgs articles) as [|C l] eqn:E; [|done].
    destruct Hne. apply sdg_counts_empty.
    apply Forall_forall. intros art Hin.
    destruct (sdgs art) as [|C l] eqn:E'; [done|].
    assert (C ∈ present_sdgs articles) as HC.
    { apply elem_of_present_sdgs. exists art. split; [done|].
      rewrite E'. apply list_elem_of_here. }
    rewrite E in HC. by apply elem_of_nil in HC. }
  apply filter_ext_in. intros art Hin%list_elem_of_In.
  unfold keeps. rewrite Hsel. change (String.eqb "All" "All") with true.
  cbn [orb]. rewrite andb_true_r.
  destruct (sdgs art) as [|C l] eqn:E; cbn [is_empty negb].
  - apply not_true_is_false. intros (sdg & _ & H)%any_true.
    apply bool_decide_eq_true in H. by apply elem_of_nil in H.
  - apply any_true. exists C. split.
    + apply elem_of_present_sdgs. exists art. split; [done|].
      rewrite E. apply list_elem_of_here.
    + apply bool_decide_eq_true. apply list_elem_of_here.
Qed.

Lemma filtered_articles_default_selection_witness :
  let neutral := Analysis "Neutral" 0 0 in
  let item := NewsItem "t" "#" "Unknown" "Unknown" "s" in
  let tagged := Article item ["Climate Action (SDG13)"] neutral in
  let untagged := Article item [] neutral in
  filtered_articles (present_sdgs [untagged; tagged; untagged]) "All"
    [untagged; tagged; untagged] = [tagged].
Proof.
  intros neutral item tagged untagged.
  apply (filtered_articles_default_selection [untagged; tagged; untagged]).
  intros H. apply (f_equal (λ m, m !! "Climate Action (SDG13)")) in H.
  by vm_compute in H.
Defined.

(** ** Colours and the keyword trace *)

Section Display.

Lemma dict_get_elem_of {V : Type} (d : list (string * V)) (key : string) (v : V) :
  dict_get d key = Some v → (key, v) ∈ d.
Proof.
  induction d as [|[k w] d IH]; [done|]. cbn [dict_get].
  destruct (String.eqb_spec k key) as [->|_].
  - intros [= ->]. apply list_elem_of_here.
  - intros H. apply list_elem_of_further. by apply IH.
Qed.

Lemma dict_get_None {V : Type} (d : list (string * V)) (key : string) :
  dict_get d key = None ↔ key ∉ d.*1.
Proof.
  induction d as [|[k w] d IH]; cbn [dict_get].
  - split; [intros _ ?%elem_of_nil; done | done].
  - rewrite fmap_cons, not_elem_of_cons. cbn [fst].
    destruct (String.eqb_spec k key) as [->|Hne].
    + split; [done | by intros [? _]].
    + rewrite IH. split; [by split | by intros [_ ?]].
Qed.

(** Looking a key up in a dict gives the value stored under it. *)
Lemma dict_get_Some {V : Type} (d : list (string * V)) (key : string) (v : V) :
  NoDup (d.*1) → dict_get d key = Some v ↔ (key, v) ∈ d.
Proof.
  intros Hnd. split; [apply dict_get_elem_of|]. intros Hin.
  destruct (dict_get d key) as [w|] eqn:E.
  - apply dict_get_elem_of in E. by rewrite (items_functional _ _ _ _ Hnd Hin E).
  - apply dict_get_None in E. destruct E. apply list_elem_of_fmap. by exists (key, v).
Qed.

Lemma SDG_KEYWORDS_colors : Forall (λ item, is_color (color item.2) = true) SDG_KEYWORDS.
Proof. unfold SDG_KEYWORDS. by repeat constructor. Qed.

(** The test of [map_snippet_to_sdgs] for one entry of the table. *)
Lemma elem_of_map_snippet_to_sdgs_any (text sdg : string) (data : sdg_entry) :
  (sdg, data) ∈ SDG_KEYWORDS →
  sdg ∈ map_snippet_to_sdgs text ↔
  any (λ keyword, Str.contains (Str.lower text) keyword) (keywords data) = true.
Proof.
  intros Hin. unfold map_snippet_to_sdgs, matched_sdgs. cbv zeta.
  rewrite elem_of_elements, elem_of_match_loop. split.
  - intros [H | (data' & Hin' & Hany)]; [by apply not_elem_of_empty in H|].
    by rewrite (items_functional _ _ _ _ SDG_KEYWORDS_names_distinct Hin Hin').
  - intros Hany. right. by exists data.
Qed.

Lemma found_nonempty (sdg : string) (data : sdg_entry) (art : article) :
  (sdg, data) ∈ SDG_KEYWORDS →
  found data art ≠ [] ↔ sdg ∈ map_snippet_to_sdgs (summary (art_item art)).
Proof.
  intros Hin. rewrite (elem_of_map_snippet_to_sdgs_any _ _ _ Hin), any_true.
  pose proof SDG_KEYWORDS_lowercase as Hlow.
  rewrite Forall_forall in Hlow. specialize (Hlow _ Hin).
  rewrite Forall_forall in Hlow. cbn [snd] in Hlow.
  unfold found. split.
  - intros Hne. destruct (List.filter _ _) as [|kw l] eqn:E; [done|].
    assert (In kw (kw :: l)) as Hkw by (by left).
    rewrite <- E in Hkw. apply filter_In in Hkw as [Hk Hc].
    apply list_elem_of_In in Hk. exists kw. split; [done|].
    by rewrite <- (Hlow kw Hk).
  - intros (kw & Hk & Hc) E.
    assert (In kw (List.filter
      (λ kw, Str.contains (Str.lower (summary (art_item art))) (Str.lower kw))
      (keywords data))) as Hkw.
    { apply filter_In. split; [by apply list_elem_of_In|]. by rewrite (Hlow kw Hk). }
    by rewrite E in Hkw.
Qed.

Lemma elem_of_matches (data : sdg_entry) (articles : list article)
    (idx : nat) (kws : list string) :
  (idx, kws) ∈ matches data articles ↔
  ∃ art, articles !! idx = Some art ∧ kws = found data art ∧ kws ≠ [].
Proof.
  unfold matches. rewrite list_elem_of_In, filter_In, <- list_elem_of_In.
  rewrite elem_of_lookup_imap. cbn [snd]. split.
  - intros [(i & art & [= -> ->] & Hart) Hne]. exists art. split_and!; [done..|].
    by destruct (found data art).
  - intros (art & Hart & -> & Hne). split; [by exists idx, art|].
    by destruct (found data art).
Qed.

Lemma classify_all_sdgs (scorer : string → outcome (float * float))
    (items : list news_item) (articles : list article) :
  classify_all scorer items = Returns articles →
  Forall (λ art, sdgs art = map_snippet_to_sdgs (summary (art_item art))) articles.
Proof.
  intros H%for_each_returns.
  induction H as [|item art items articles Hart _ IH]; constructor; [|done].
  apply classify_returns_iff in Hart as (a & _ & ->). done.
Qed.

End Display.

(** X10. Every category in the tally of classified articles is a key of the table:
    the colour lookup of the chart does not raise [KeyError] for it, and the
    badge gets the colour of the table, not the black default.  A name that is
    not a key raises in the chart and gets the default on a badge. *)
Theorem colors_of_classified_articles
    (TextBlob_sentiment : string → outcome (float * float))
    (items : list news_item) (articles : list article) :
  classify_all TextBlob_sentiment items = Returns articles →
  (∀ sdg, sdg ∈ dom (sdg_counts articles) →
     ∃ data, (sdg, data) ∈ SDG_KEYWORDS
             ∧ chart_color sdg = Returns (color data)
             ∧ badge_color sdg = color data
             ∧ is_color (color data) = true)
  ∧ (∀ sdg, sdg ∉ SDG_KEYWORDS.*1 →
       chart_color sdg = Raises "KeyError" ∧ badge_color sdg = "#000000").
Proof.
  intros Hall%classify_all_sdgs. split.
  - intros sdg (art & Hart & Hsdg)%elem_of_dom_sdg_counts.
    rewrite Forall_forall in Hall. rewrite (Hall art Hart) in Hsdg.
    apply elem_of_map_snippet_to_sdgs in Hsdg as (data & _ & Hin & _).
    exists data. unfold chart_color, badge_color.
    rewrite (proj2 (dict_get_Some _ _ _ SDG_KEYWORDS_names_distinct) Hin).
    split_and!; [done..|].
    pose proof SDG_KEYWORDS_colors as Hcol. rewrite Forall_forall in Hcol.
    apply (Hcol _ Hin).
  - intros sdg Hnot%dict_get_None. unfold chart_color, badge_color. by rewrite Hnot.
Qed.

Lemma colors_of_classified_articles_witness :
  let scorer := λ _ : string, Returns (0.5, 0.5)%float in
  let items := [NewsItem "t" "#" "Unknown" "Unknown" "Solar jobs for all"] in
  ∃ articles, classify_all scorer items = Returns articles
    ∧ (∀ sdg, sdg ∈ dom (sdg_counts articles) →
         ∃ data, (sdg, data) ∈ SDG_KEYWORDS
                 ∧ chart_color sdg = Returns (color data)
                 ∧ badge_color sdg = color data
                 ∧ is_color (color data) = true).
Proof.
  intros scorer items. eexists. split; [reflexivity|].
  eapply (colors_of_classified_articles scorer items). reflexivity.
Defined.

Lemma filter_sublist {A : Type} (f : A → bool) (l : list A) :
  List.filter f l `sublist_of` l.
Proof.
  induction l as [|x l IH]; simpl; [done|]. destruct (f x); by constructor.
Qed.

(** X11. The keyword trace agrees with the classification: in the trace of a
    category, an article is listed exactly when the category is among its
    categories.  It is listed with some of the keywords of the category, in
    the order of the table and one at least; when its summary is ASCII these
    are exactly the keywords that occur in the summary ignoring case. *)
Theorem matches_agree_with_classification
    (TextBlob_sentiment : string → outcome (float * float))
    (items : list news_item) (articles : list article)
    (sdg : string) (data : sdg_entry) (idx : nat) :
  classify_all TextBlob_sentiment items = Returns articles →
  (sdg, data) ∈ SDG_KEYWORDS →
  ((∃ kws, (idx, kws) ∈ matches data articles) ↔
   (∃ art, articles !! idx = Some art ∧ sdg ∈ sdgs art))
  ∧ (∀ kws, (idx, kws) ∈ matches data articles →
       kws ≠ [] ∧ kws `sublist_of` keywords data
       ∧ ∃ art, articles !! idx = Some art ∧
           (is_ascii (summary (art_item art)) = true →
            ∀ kw, kw ∈ kws ↔
                  kw ∈ keywords data ∧ occurs_ignoring_case kw (summary (art_item art)))).
Proof.
  intros Hall%classify_all_sdgs Hin. rewrite Forall_forall in Hall. split.
  - split.
    + intros (kws & (art & Hart & -> & Hne)%elem_of_matches).
      exists art. split; [done|].
      rewrite (Hall art) by (by eapply list_elem_of_lookup_2).
      by apply (found_nonempty _ _ _ Hin).
    + intros (art & Hart & Hsdg). exists (found data art).
      apply elem_of_matches. exists art. split_and!; [done..|].
      apply (found_nonempty _ _ _ Hin).
      by rewrite <- (Hall art) by (by eapply list_elem_of_lookup_2).
  - intros kws (art & Hart & -> & Hne)%elem_of_matches.
    split_and!; [done | apply filter_sublist |].
    exists art. split; [done|]. intros _ kw. unfold found.
    rewrite list_elem_of_In, filter_In, <- list_elem_of_In.
    pose proof SDG_KEYWORDS_lowercase as Hlow.
    rewrite Forall_forall in Hlow. specialize (Hlow _ Hin).
    rewrite Forall_forall in Hlow. cbn [snd] in Hlow.
    rewrite <- occurs_ci_ignoring_case.
    split; intros [Hk Hc]; (split; [done|]).
    + rewrite (Hlow kw Hk) in Hc. by apply StrFacts.contains_lower_ci; [apply Hlow|].
    + rewrite (Hlow kw Hk). by apply StrFacts.contains_lower_ci; [apply Hlow|].
Qed.

Lemma matches_agree_with_classification_witness :
  let scorer := λ _ : string, Returns (0.5, 0.5)%float in
  let items := [ NewsItem "a" "#" "Unknown" "Unknown" "nothing";
                 NewsItem "b" "#" "Unknown" "Unknown" "Offshore WIND and solar" ] in
  let data := SdgEntry ["clean energy"; "renewable"; "solar"; "wind"; "energy efficiency"]
                "#fcc30b" in
  ∃ articles, classify_all scorer items = Returns articles
    ∧ ((∃ kws, (1, kws) ∈ matches data articles) ↔
       (∃ art, articles !! 1 = Some art ∧ "Affordable and Clean Energy (SDG7)" ∈ sdgs art))
    ∧ (1, ["solar"; "wind"]) ∈ matches data articles
    ∧ ["solar"; "wind"] `sublist_of` keywords data.
Proof.
  intros scorer items data. eexists. split; [reflexivity|].
  assert (("Affordable and Clean Energy (SDG7)", data) ∈ SDG_KEYWORDS) as Hin
    by (do 3 apply list_elem_of_further; apply list_elem_of_here).
  match goal with |- (_ ↔ (∃ art, ?arts !! 1 = _ ∧ _)) ∧ _ =>
    pose proof (matches_agree_with_classification scorer items arts
                  "Affordable and Clean Energy (SDG7)" data 1 eq_refl Hin) as [Hiff Hkws]
  end.
  assert ((1, ["solar"; "wind"]) ∈ matches data
            [ Article (NewsItem "a" "#" "Unknown" "Unknown" "nothing")
                (map_snippet_to_sdgs "nothing") (Analysis "Positive" 0.5 0.5);
              Article (NewsItem "b" "#" "Unknown" "Unknown" "Offshore WIND and solar")
                (map_snippet_to_sdgs "Offshore WIND and solar")
                (Analysis "Positive" 0.5 0.5) ]) as Hm
    by (vm_compute; apply list_elem_of_here).
  split_and!; [exact Hiff | exact Hm | apply (Hkws _ Hm)].
Defined.

(** ** Highlighting with [str.replace] *)

Section Replace.

#[local] Arguments String.append !s1 s2 : simpl nomatch.

Lemma occurs_in_tail (c : ascii) (s sub : string) :
  occurs_in sub s → occurs_in sub (String c s).
Proof. intros (pre & post & ->). by exists (String c pre), post. Qed.

Lemma occurs_in_head (c : ascii) (s sub : string) :
  occurs_in sub (String c s) → Str.startswith (String c s) sub = true ∨ occurs_in sub s.
Proof.
  intros ([|x pre] & post & H).
  - left. apply StrFacts.startswith_spec. by exists post.
  - right. simpl in H. injection H as _ ->. by exists pre, post.
Qed.

Lemma occurs_in_app_l (sub a b : string) : occurs_in sub a → occurs_in sub (a +:+ b).
Proof.
  intros (pre & post & ->). exists pre, (post +:+ b).
  by rewrite !StrFacts.app_assoc.
Qed.

Lemma occurs_in_trans (a b c : string) : occurs_in a b → occurs_in b c → occurs_in a c.
Proof.
  intros (pre & post & ->) (pre' & post' & ->).
  exists (pre' +:+ pre), (post +:+ post'). by rewrite !StrFacts.app_assoc.
Qed.

Lemma replace_scan_absent (s old new : string) :
  ¬ occurs_in old s → replace_scan 0 s old new = s.
Proof.
  induction s as [|c s IH]; intros Habs; [done|].
  cbn [replace_scan].
  destruct (Str.startswith (String c s) old) eqn:Hs.
  - destruct Habs. apply StrFacts.startswith_spec in Hs as [post ->]. by exists "", post.
  - rewrite IH; [done|]. intros H. by apply Habs, occurs_in_tail.
Qed.

Lemma replace_absent (s old new : string) :
  ¬ occurs_in old s → replace s old new = s.
Proof.
  intros Habs. destruct old as [|c old].
  - destruct Habs. by exists "", s.
  - by apply replace_scan_absent.
Qed.

Lemma replace_scan_present (s old new : string) :
  old ≠ "" → occurs_in old s → occurs_in new (replace_scan 0 s old new).
Proof.
  intros Hold. induction s as [|c s IH]; intros Hocc.
  - destruct Hocc as ([|x pre] & post & H); [|discriminate H].
    destruct old; [done | discriminate H].
  - cbn [replace_scan].
    destruct (Str.startswith (String c s) old) eqn:Hs.
    + by exists "", (replace_scan (String.length old - 1) s old new).
    + apply occurs_in_head in Hocc as [Hhd | Hocc]; [congruence|].
      by apply occurs_in_tail, IH.
Qed.

Lemma occurs_in_mark (kw : string) : occurs_in kw (mark kw).
Proof. by exists "<mark style='background-color: #ffe066'>", "</mark>". Qed.

Lemma highlighted_absent (summary : string) (kws : list string) :
  Forall (λ kw, ¬ occurs_in kw summary) kws → highlighted summary kws = summary.
Proof.
  unfold highlighted. induction 1 as [|kw kws Habs _ IH]; [done|].
  cbn [foldl]. by rewrite replace_absent.
Qed.

End Replace.

(** X12. Highlighting replaces the listed keywords one after another with the
    case-sensitive [str.replace].  When none of the listed keywords occurs in
    the summary in the letter case of the table, the summary is shown
    unchanged, whatever the trace lists.  One replacement puts the mark of a
    non-empty keyword into a string exactly when the keyword occurs in that
    string as it is written.  This does not carry over to the whole list: a
    keyword that contains an earlier one loses its occurrence to the mark of
    the earlier one, as "mental health" and "healthcare" do after "health". *)
Theorem highlighted_marks_verbatim_only :
  (∀ summary kws,
     Forall (λ kw, ¬ occurs_in kw summary) kws → highlighted summary kws = summary)
  ∧ (∀ s kw, kw ≠ "" →
       occurs_in (mark kw) (replace s kw (mark kw)) ↔ occurs_in kw s)
  ∧ (let summary := "mental health and healthcare" in
     let kws := ["health"; "mental health"; "healthcare"] in
     Forall (λ kw, occurs_in kw summary) kws
     ∧ occurs_in (mark "health") (highlighted summary kws)
     ∧ ¬ occurs_in (mark "mental health") (highlighted summary kws)
     ∧ ¬ occurs_in (mark "healthcare") (highlighted summary kws)).
Proof.
  split_and!.
  - apply highlighted_absent.
  - intros s kw Hkw. split.
    + intros Hmark.
      destruct (Str.contains s kw) eqn:E; [by apply StrFacts.contains_spec|].
      assert (¬ occurs_in kw s) as H
        by (rewrite <- StrFacts.contains_spec; congruence).
      rewrite replace_absent in Hmark by done.
      by eapply occurs_in_trans; [apply occurs_in_mark|].
    + intros Hocc. unfold replace. destruct kw as [|c kw]; [done|].
      by apply replace_scan_present.
  - cbv zeta. split_and!.
    + repeat constructor; rewrite <- StrFacts.contains_spec; by vm_compute.
    + rewrite <- StrFacts.contains_spec. by vm_compute.
    + rewrite <- StrFacts.contains_spec. by vm_compute.
    + rewrite <- StrFacts.contains_spec. by vm_compute.
Qed.

Lemma highlighted_marks_verbatim_only_witness :
  Str.contains (Str.lower "Diversity and INCLUSION") "inclusion" = true
  ∧ highlighted "Diversity and INCLUSION" ["diversity"; "inclusion"]
    = "Diversity and INCLUSION".
Proof.
  split; [reflexivity|].
  apply (proj1 highlighted_marks_verbatim_only).
  repeat constructor; rewrite <- StrFacts.contains_spec; by vm_compute.
Defined.

(** ** The progress bar of an ESG score *)

Section Progress.

Local Open Scope float_scope.

Lemma SFleb_of_not_SFltb (a b : spec_float) :
  a ≠ S754_nan → b ≠ S754_nan → SFltb b a = false → SFleb a b = true.
Proof.
  intros Ha Hb. unfold SFltb, SFleb, SFcompare.
  destruct a as [sa|sa| |sa ma ea], b as [sb|sb| |sb mb eb]; try done;
    try (by destruct sa); try (by destruct sb); try (by destruct sa, sb).
  destruct sa, sb; try done.
  - rewrite (Z.compare_antisym eb ea). destruct (Z.compare eb ea); try done.
    change (Pos.compare_cont Eq ma mb) with (Pos.compare ma mb).
    change (Pos.compare_cont Eq mb ma) with (Pos.compare mb ma).
    rewrite (Pos.compare_antisym mb ma). by destruct (Pos.compare mb ma).
  - rewrite (Z.compare_antisym eb ea). destruct (Z.compare eb ea); try done.
    change (Pos.compare_cont Eq ma mb) with (Pos.compare ma mb).
    change (Pos.compare_cont Eq mb ma) with (Pos.compare mb ma).
    rewrite (Pos.compare_antisym mb ma). by destruct (Pos.compare mb ma).
Qed.

Lemma not_nan_Prim2SF (x : float) : is_nan x = false → Prim2SF x ≠ S754_nan.
Proof.
  unfold is_nan. rewrite FloatAxioms.eqb_spec. intros H E. rewrite E in H. done.
Qed.

Lemma nan_Prim2SF (x : float) : is_nan x = true → Prim2SF x = S754_nan.
Proof.
  unfold is_nan. rewrite FloatAxioms.eqb_spec. unfold SFeqb, SFcompare.
  destruct (Prim2SF x) as [s|s| |s m e]; try done.
  - by destruct s.
  - destruct s; rewrite Z.compare_refl;
      change (Pos.compare_cont Eq m m) with (Pos.compare m m);
      by rewrite Pos.compare_refl.
Qed.

(** A double that is not NaN and not below [b] is at least [b]. *)
Lemma leb_of_not_ltb (x b : float) :
  is_nan x = false → is_nan b = false → (x <? b) = false → (b <=? x) = true.
Proof.
  intros Hx Hb. rewrite ltb_spec, leb_spec.
  apply SFleb_of_not_SFltb; by apply not_nan_Prim2SF.
Qed.

Lemma not_nan_of_Prim2SF (x : float) : Prim2SF x ≠ S754_nan → is_nan x = false.
Proof.
  intros H. destruct (is_nan x) eqn:E; [|done]. by apply nan_Prim2SF in E.
Qed.

Lemma leb_not_nan_r (a x : float) : (a <=? x) = true → is_nan x = false.
Proof.
  rewrite leb_spec. intros H. apply not_nan_of_Prim2SF. intros E.
  rewrite E in H. unfold SFleb, SFcompare in H. by destruct (Prim2SF a).
Qed.

Local Open Scope Z_scope.

Variables prec emax : Z.

Lemma shr_1_nonneg (mrs : shr_record) : 0 <= shr_m mrs → 0 <= shr_m (shr_1 mrs).
Proof.
  destruct mrs as [m r s]. simpl. intros H.
  destruct m as [|[p|p|]|p]; simpl; lia.
Qed.

Lemma iter_pos_invariant {A : Type} (P : A → Prop) (f : A → A) :
  (∀ x, P x → P (f x)) → ∀ n x, P x → P (SpecFloat.iter_pos f n x).
Proof.
  intros Hf n. induction n as [n IH|n IH|]; intros x Hx; simpl; auto.
Qed.

Lemma shr_nonneg (mrs : shr_record) (e n : Z) :
  0 <= shr_m mrs → 0 <= shr_m (shr mrs e n).1.
Proof.
  intros H. unfold shr. destruct n; simpl; auto.
  apply (iter_pos_invariant (λ r, 0 <= shr_m r)); auto using shr_1_nonneg.
Qed.

Lemma shr_fexp_nonneg (m e : Z) (l : location) :
  0 <= m → 0 <= shr_m (shr_fexp prec emax m e l).1.
Proof.
  intros H. unfold shr_fexp. apply shr_nonneg.
  destruct l as [|[]]; simpl; auto.
Qed.

Lemma round_nearest_even_nonneg (m : Z) (l : location) :
  0 <= m → 0 <= round_nearest_even m l.
Proof.
  intros H. unfold round_nearest_even. destruct l as [|[]]; try lia.
  destruct (Z.even m); lia.
Qed.

(** Rounding a mantissa that is not negative does not give NaN. *)
Lemma binary_round_aux_not_nan (sx : bool) (mx ex : Z) (lx : location) :
  0 <= mx → binary_round_aux prec emax sx mx ex lx ≠ S754_nan.
Proof.
  intros H. unfold binary_round_aux.
  pose proof (shr_fexp_nonneg mx ex lx H) as H1.
  destruct (shr_fexp prec emax mx ex lx) as [mrs' e']. simpl in H1.
  pose proof (shr_fexp_nonneg
    (round_nearest_even (shr_m mrs') (loc_of_shr_record mrs')) e' loc_Exact
    (round_nearest_even_nonneg _ _ H1)) as H2.
  destruct (shr_fexp prec emax _ e' loc_Exact) as [mrs'' e'']. simpl in H2.
  destruct (shr_m mrs'') as [|m|m]; [done | | lia].
  by destruct (Z.leb e'' (emax - prec)).
Qed.

(** A number divided by a finite number other than zero is a number. *)
Lemma SFdiv_finite_not_nan (x : spec_float) (sy : bool) (my : positive) (ey : Z) :
  x ≠ S754_nan → SFdiv prec emax x (S754_finite sy my ey) ≠ S754_nan.
Proof.
  intros Hx. destruct x as [sx|sx| |sx mx ex]; simpl; [done..|].
  unfold SFdiv_core_binary.
  set (m' := match _ - _ with Z0 => Zpos mx | Zpos _ => _ | Zneg _ => 0 end).
  assert (0 <= m') as Hm'.
  { subst m'. destruct (_ - _); try lia. apply Z.shiftl_nonneg. lia. }
  pose proof (Z.div_pos m' (Zpos my) Hm' ltac:(lia)) as Hq.
  unfold Z.div in Hq. destruct (Z.div_eucl m' (Zpos my)) as [q r].
  by apply binary_round_aux_not_nan.
Qed.

End Progress.

(** The hundredth of a score that is a number is a number. *)
Lemma div_100_not_nan (val_float : float) :
  is_nan val_float = false → is_nan (val_float / 100)%float = false.
Proof.
  intros H%not_nan_Prim2SF. apply not_nan_of_Prim2SF.
  rewrite div_spec. unfold SF64div.
  change (Prim2SF 100) with (S754_finite false 7036874417766400 (-46)).
  by apply SFdiv_finite_not_nan.
Qed.

(** X13. A numeric score reaches the progress bar only from inside the range
    of the slider, so a NaN score never does: it is passed over.  What the bar
    is given is the [int] 0 for a negative score, the [int] 1 for a score
    above 100, and otherwise the hundredth of the score, a [float] between 0
    and 1. *)
Theorem progress_value_in_range (lo hi val_float : float) :
  (∀ shown, metric_progress (Some (lo, hi)) val_float = Some shown →
     is_nan val_float = false
     ∧ (lo <=? val_float)%float = true ∧ (val_float <=? hi)%float = true
     ∧ ( ((val_float / 100 <? 0)%float = true ∧ shown = PyInt 0)
       ∨ ((val_float / 100 <? 0)%float = false ∧ (1 <? val_float / 100)%float = true
          ∧ shown = PyInt 1)
       ∨ (shown = PyFloat (val_float / 100)%float
          ∧ (0 <=? val_float / 100)%float = true
          ∧ (val_float / 100 <=? 1)%float = true)))
  ∧ (is_nan val_float = true → metric_progress (Some (lo, hi)) val_float = None).
Proof.
  assert (int_as_float 0 = 0%float ∧ int_as_float 1 = 1%float) as [E0 E1]
    by (split; reflexivity).
  split.
  - intros shown. unfold metric_progress.
    destruct (lo <=? val_float)%float eqn:Hlo; [|done].
    destruct (val_float <=? hi)%float eqn:Hhi; [|done].
    cbn [andb negb]. intros [= <-].
    pose proof (leb_not_nan_r _ _ Hlo) as Hnan.
    pose proof (div_100_not_nan _ Hnan) as Hx.
    split_and!; [done..|].
    unfold progress_value, py_max, py_min. cbn [py_lt]. rewrite E0.
    destruct (val_float / 100 <? 0)%float eqn:H0.
    + left. cbn [py_lt]. done.
    + right. cbn [py_lt]. rewrite E1.
      destruct (1 <? val_float / 100)%float eqn:H1; [by left|].
      right. split_and!; [done | by apply leb_of_not_ltb | by apply leb_of_not_ltb].
  - intros Hnan. unfold metric_progress.
    destruct (lo <=? val_float)%float eqn:Hlo; [|done].
    apply leb_not_nan_r in Hlo. congruence.
Qed.

Lemma progress_value_in_range_witness :
  metric_progress (Some (0, 180)%float) 55%float = Some (PyFloat (55 / 100)%float)
  ∧ metric_progress (Some (0, 180)%float) 180%float = Some (PyInt 1)
  ∧ metric_progress (Some (0, 180)%float) nan = None.
Proof.
  split_and!; [reflexivity | reflexivity |].
  apply (proj2 (progress_value_in_range 0 180 nan)). reflexivity.
Defined.

(** ** The text handed to the summarizer *)

Section Slice.

#[local] Arguments String.append !s1 s2 : simpl nomatch.

Lemma length_substring_0 (n : nat) (s : string) :
  String.length (String.substring 0 n s) = (n `min` String.length s)%nat.
Proof.
  revert s. induction n as [|n IH]; intros [|c s]; simpl; [done..|].
  by rewrite IH.
Qed.

Lemma substring_0_prefix (n : nat) (s : string) :
  ∃ rest, s = String.substring 0 n s +:+ rest.
Proof.
  revert s. induction n as [|n IH]; intros [|c s]; simpl.
  - by exists "".
  - by exists (String c s).
  - by exists "".
  - destruct (IH s) as [rest Hrest]. exists rest. by rewrite <- Hrest.
Qed.

Lemma substring_0_all (n : nat) (s : string) :
  (String.length s ≤ n)%nat → String.substring 0 n s = s.
Proof.
  revert s. induction n as [|n IH]; intros [|c s]; simpl; intros Hlen; try done.
  - lia.
  - rewrite IH; [done | lia].
Qed.

End Slice.

(** X14. The text handed to the summarizer is the beginning of the summaries
    joined by single spaces: at most 3000 characters of it, and all of it when
    it is no longer than that. *)
Theorem combined_text_truncated (articles : list article) :
  let joined := String.concat " " ((λ art, summary (art_item art)) <$> articles) in
  (String.length (combined_text articles) ≤ 3000)%nat
  ∧ String.length (combined_text articles) = (3000 `min` String.length joined)%nat
  ∧ (∃ rest, joined = combined_text articles +:+ rest)
  ∧ ((String.length joined ≤ 3000)%nat → combined_text articles = joined).
Proof.
  intros joined. unfold combined_text. fold joined.
  pose proof (length_substring_0 3000 joined) as Hlen.
  split_and!.
  - rewrite Hlen. apply Nat.le_min_l.
  - done.
  - apply substring_0_prefix.
  - apply substring_0_all.
Qed.

Lemma combined_text_truncated_witness :
  let item text := NewsItem "t" "#" "Unknown" "Unknown" text in
  let neutral := Analysis "Neutral" 0 0 in
  combined_text [Article (item "Solar") [] neutral; Article (item "jobs") [] neutral]
  = "Solar jobs".
Proof.
  intros item neutral.
  apply (combined_text_truncated
           [Article (item "Solar") [] neutral; Article (item "jobs") [] neutral]).
  vm_compute. lia.
Defined.

(** ** The sum of the tally *)

Section Total.

Lemma total_count_increment (counts : gmap string nat) (sdg : string) :
  total_count (increment counts sdg) = S (total_count counts).
Proof.
  unfold total_count, increment.
  assert (∀ (j1 j2 : string) (z1 z2 y : nat),
    (λ (_ : string) (n acc : nat), n + acc) j1 z1 ((λ _ n acc, n + acc) j2 z2 y)
    = (λ (_ : string) (n acc : nat), n + acc) j2 z2 ((λ _ n acc, n + acc) j1 z1 y)) as Hcomm
    by (intros; simpl; lia).
  destruct (counts !! sdg) as [n|] eqn:E; simpl.
  - rewrite (map_fold_delete_L _ _ sdg n counts); [|by intros; apply Hcomm | done].
    rewrite <- (insert_delete_eq counts).
    rewrite map_fold_insert_L; [lia | by intros; apply Hcomm | apply lookup_delete_eq].
  - rewrite map_fold_insert_L; [lia | by intros; apply Hcomm | done].
Qed.

Lemma total_count_foldl_increment (l : list string) (counts : gmap string nat) :
  total_count (foldl increment counts l) = total_count counts + length l.
Proof.
  revert counts. induction l as [|sdg l IH]; intros counts; simpl; [lia|].
  rewrite IH, total_count_increment. lia.
Qed.

End Total.

(** X15. Every category of every article is counted once: the counts of the tally
    add up to the number of categories listed in all the articles. *)
Theorem sdg_counts_total (articles : list article) :
  total_count (sdg_counts articles) = sum_list ((λ art, length (sdgs art)) <$> articles).
Proof.
  unfold sdg_counts.
  assert (∀ counts,
    total_count (foldl (λ counts art, foldl increment counts (sdgs art)) counts articles)
    = total_count counts + sum_list ((λ art, length (sdgs art)) <$> articles)) as H.
  { induction articles as [|art articles IH]; intros counts.
    - simpl. lia.
    - rewrite fmap_cons. cbn [foldl sum_list].
      rewrite IH, total_count_foldl_increment. unfold id. lia. }
  rewrite H. unfold total_count. by rewrite map_fold_empty.
Qed.

(** ** The address of the news search *)

Section SearchUrl.

#[local] Arguments String.append !s1 s2 : simpl nomatch.

Lemma replace_space_cons (c : ascii) (s : string) :
  replace (String c s) " " "+"
  = String (if Ascii.eqb " " c then "+"%char else c) (replace s " " "+").
Proof.
  unfold replace. cbn [replace_scan Str.startswith].
  destruct (Ascii.eqb " " c); [|done].
  by destruct s.
Qed.

Lemma replace_space_get (s : string) (i : nat) :
  String.get i (replace s " " "+")
  = (λ c, if Ascii.eqb " " c then "+"%char else c) <$> String.get i s.
Proof.
  revert i. induction s as [|c s IH]; intros i; [done|].
  rewrite replace_space_cons. destruct i as [|i]; cbn [String.get]; [done | apply IH].
Qed.

Lemma replace_space_length (s : string) :
  String.length (replace s " " "+") = String.length s.
Proof.
  induction s as [|c s IH]; [done|]. rewrite replace_space_cons.
  cbn [String.length]. by rewrite IH.
Qed.

Lemma replace_space_free (s : string) : Str.contains (replace s " " "+") " " = false.
Proof.
  induction s as [|c s IH]; [done|]. rewrite replace_space_cons.
  change (Str.contains (String ?a ?r) " ")
    with (Str.startswith (String a r) " " || Str.contains r " ").
  rewrite IH, orb_false_r. cbn [Str.startswith].
  destruct (Ascii.eqb_spec " " c) as [<- | Hne]; [done|].
  destruct (Ascii.eqb_spec " " c); [done | done].
Qed.

(** A single character is met in [a +:+ b] when it is met in [a] or in [b]. *)
Lemma contains_char_app (c : ascii) (a b : string) :
  Str.contains (a +:+ b) (String c "")
  = Str.contains a (String c "") || Str.contains b (String c "").
Proof.
  induction a as [|x a IH]; [done|].
  change (String x a +:+ b) with (String x (a +:+ b)).
  change (Str.contains (String x (a +:+ b)) (String c ""))
    with (Str.startswith (String x (a +:+ b)) (String c "")
          || Str.contains (a +:+ b) (String c "")).
  change (Str.contains (String x a) (String c ""))
    with (Str.startswith (String x a) (String c "") || Str.contains a (String c "")).
  rewrite IH, orb_assoc. by f_equal.
Qed.

End SearchUrl.

(** X16. The company name goes into the address with every space turned into a
    plus sign and every other character as it is, nothing else being escaped:
    the address has no space and is as long as the prefix and the name. *)
Theorem search_url_spaces (company_name : string) :
  ¬ occurs_in " " (search_url company_name)
  ∧ String.length (search_url company_name) = 28 + String.length company_name
  ∧ (∀ i, String.get (28 + i) (search_url company_name)
          = (λ c, if Ascii.eqb " " c then "+"%char else c) <$> String.get i company_name)
  ∧ (¬ occurs_in " " company_name →
     search_url company_name = "https://www.esgtoday.com/?s=" +:+ company_name).
Proof.
  unfold search_url. split_and!.
  - rewrite <- StrFacts.contains_spec.
    rewrite (contains_char_app " "), replace_space_free. by vm_compute.
  - rewrite <- (replace_space_length company_name). done.
  - intros i. rewrite <- replace_space_get. done.
  - intros Habs. by rewrite replace_absent.
Qed.

Lemma search_url_spaces_witness :
  search_url "Apple" = "https://www.esgtoday.com/?s=Apple"
  ∧ ¬ occurs_in " " (search_url "Procter and Gamble").
Proof.
  split.
  - apply (search_url_spaces "Apple").
    rewrite <- StrFacts.contains_spec. by vm_compute.
  - apply (search_url_spaces "Procter and Gamble").
Defined.
